(** * Mission Control web server: a shallow embedding of [src/server/load.py]

    The program is a subclass of the Python standard library's
    [http.server.SimpleHTTPRequestHandler], run by a [socketserver.TCPServer].
    The embedding follows the classes as they are written:

    - [posixpath], [BaseHTTPRequestHandler], [SimpleHTTPRequestHandler] and
      [socketserver] hold the standard-library methods the program inherits
      (CPython 3.11, [Lib/posixpath.py], [Lib/http/server.py],
      [Lib/socketserver.py]); methods that the program overrides are reached
      through open recursion, as in Python;
    - [MissionControlHandler] and [main] hold the program's own code.

    Python [str] values are modelled as [string]: the request line is decoded
    as iso-8859-1, so every code point of a request path is one [ascii].  The
    encodings of such text to bytes are the identity.  Library functions whose
    result depends on tables or on Unicode handling ([mimetypes], [urlsplit],
    the decoding of percent escapes, [repr], the clock) are fields of
    [Platform]; the state of the file system is read through the fields of
    [FileSystem].  Logging to standard error by the request handler is left
    out.

    A request is modelled from the point where [parse_request] has
    succeeded ([Request]); the error responses that [parse_request] itself
    sends for a request line that does not parse are not part of the model.
    The file system has no symbolic links.  The interrupt signal is modelled
    where the server waits for it, in the [select] of [serve_forever]. *)

From Stdlib Require Import String Ascii List ZArith Bool Arith Lia DecimalString.
Import ListNotations.

Open Scope list_scope.
Open Scope string_scope.

(** ** Python string methods *)

Module Str.

Definition CR : ascii := "013"%char.
Definition LF : ascii := "010"%char.
Definition CRLF : string := String CR (String LF EmptyString).
Definition DQUOTE : string := String "034"%char EmptyString.

(** [c in s] *)
Fixpoint contains (c : ascii) (s : string) : bool :=
  match s with
  | EmptyString => false
  | String a s' => Ascii.eqb a c || contains c s'
  end.

(** [s.split(c, 1)[0]] *)
Fixpoint before (c : ascii) (s : string) : string :=
  match s with
  | EmptyString => EmptyString
  | String a s' => if Ascii.eqb a c then EmptyString else String a (before c s')
  end.

(** [s.split(c)] *)
Fixpoint split (c : ascii) (s : string) : list string :=
  match s with
  | EmptyString => [EmptyString]
  | String a s' =>
      if Ascii.eqb a c then EmptyString :: split c s'
      else match split c s' with
           | [] => [String a EmptyString]
           | w :: ws => String a w :: ws
           end
  end.

(** [sep.join(l)] *)
Definition join (sep : string) (l : list string) : string := String.concat sep l.

Definition startswith (s p : string) : bool := String.prefix p s.

Fixpoint rev (s : string) : string :=
  match s with
  | EmptyString => EmptyString
  | String a s' => rev s' ++ String a EmptyString
  end.

Definition endswith (s suffix : string) : bool := String.prefix (rev suffix) (rev s).

Definition is_empty (s : string) : bool :=
  match s with EmptyString => true | _ => false end.

(** [s.rstrip(chars)], with the set of characters given as a predicate. *)
Fixpoint rstrip_if (p : ascii -> bool) (s : string) : string :=
  match s with
  | EmptyString => EmptyString
  | String a s' =>
      let r := rstrip_if p s' in
      if p a && is_empty r then EmptyString else String a r
  end.

(** [str.isspace] on the code points below 256. *)
Definition isspace (c : ascii) : bool :=
  let n := nat_of_ascii c in
  ((9 <=? n)%nat && (n <=? 13)%nat) || ((28 <=? n)%nat && (n <=? 32)%nat)
  || (n =? 133)%nat || (n =? 160)%nat.

(** [s.rstrip()] *)
Definition rstrip (s : string) : string := rstrip_if isspace s.

(** [str.lower] on the code points below 256. *)
Definition lower_char (c : ascii) : ascii :=
  let n := nat_of_ascii c in
  if ((65 <=? n)%nat && (n <=? 90)%nat)
     || ((192 <=? n)%nat && (n <=? 222)%nat && negb (n =? 215)%nat)
  then ascii_of_nat (n + 32) else c.

Fixpoint lower (s : string) : string :=
  match s with
  | EmptyString => EmptyString
  | String a s' => String (lower_char a) (lower s')
  end.

Fixpoint rfind_from (c : ascii) (s : string) (i last : Z) : Z :=
  match s with
  | EmptyString => last
  | String a s' => rfind_from c s' (i + 1)%Z (if Ascii.eqb a c then i else last)
  end.

(** [s.rfind(c)], -1 when [c] does not occur. *)
Definition rfind (c : ascii) (s : string) : Z := rfind_from c s 0%Z (-1)%Z.

(** [s[:i]] and [s[i:]] for [0 <= i]. *)
Definition take (i : Z) (s : string) : string := substring 0 (Z.to_nat i) s.
Definition drop (i : Z) (s : string) : string :=
  substring (Z.to_nat i) (String.length s - Z.to_nat i) s.

Fixpoint forallb (p : ascii -> bool) (s : string) : bool :=
  match s with
  | EmptyString => true
  | String a s' => p a && forallb p s'
  end.

(** [s.replace(c, r)] for a one-character [c]. *)
Fixpoint replace (c : ascii) (r : string) (s : string) : string :=
  match s with
  | EmptyString => EmptyString
  | String a s' => (if Ascii.eqb a c then r else String a EmptyString) ++ replace c r s'
  end.

(** [str(n)] for a natural number. *)
Definition of_nat (n : nat) : string := NilZero.string_of_uint (Nat.to_uint n).
Definition of_N (n : N) : string := NilZero.string_of_uint (N.to_uint n).

End Str.

(** ** [posixpath] *)

Module posixpath.

Definition sep : ascii := "/"%char.

(** [posixpath.join(a, b)] *)
Definition join (a b : string) : string :=
  if Str.startswith b "/" then b
  else if Str.is_empty a || Str.endswith a "/" then a ++ b
  else a ++ "/" ++ b.

(** [posixpath.dirname] *)
Definition dirname (p : string) : string :=
  let i := (Str.rfind sep p + 1)%Z in
  let head := Str.take i p in
  if negb (Str.is_empty head) && negb (Str.forallb (Ascii.eqb sep) head)
  then Str.rstrip_if (Ascii.eqb sep) head
  else head.

(** The loop of [normpath] over the components; [new_comps] is kept in
    reverse, so that its last element is the head of the list. *)
Fixpoint normpath_comps (initial_slashes : nat) (comps new_comps : list string)
  : list string :=
  match comps with
  | [] => List.rev new_comps
  | comp :: rest =>
      if (comp =? "") || (comp =? ".") then
        normpath_comps initial_slashes rest new_comps
      else if negb (comp =? "..")
              || ((initial_slashes =? 0)%nat && match new_comps with [] => true | _ => false end)
              || match new_comps with last :: _ => last =? ".." | [] => false end
      then normpath_comps initial_slashes rest (comp :: new_comps)
      else match new_comps with
           | _ :: popped => normpath_comps initial_slashes rest popped
           | [] => normpath_comps initial_slashes rest new_comps
           end
  end.

(** [posixpath.normpath] *)
Definition normpath (path : string) : string :=
  if path =? "" then "."
  else
    let initial_slashes :=
      if Str.startswith path "/" then
        if Str.startswith path "//" && negb (Str.startswith path "///") then 2 else 1
      else 0 in
    let comps := normpath_comps initial_slashes (Str.split sep path) [] in
    let path := Str.join "/" comps in
    let path :=
      match initial_slashes with
      | 0 => path
      | 1 => "/" ++ path
      | _ => "//" ++ path
      end in
    if path =? "" then "." else path.

(** [posixpath.splitext(p)[1]]: the extension, from the last dot, unless the
    file name consists of leading dots only up to that dot. *)
Definition splitext_ext (p : string) : string :=
  let sepIndex := Str.rfind sep p in
  let dotIndex := Str.rfind "."%char p in
  if (sepIndex <? dotIndex)%Z then
    let leading := Str.drop (sepIndex + 1) (Str.take dotIndex p) in
    if Str.forallb (Ascii.eqb "."%char) leading then EmptyString
    else Str.drop dotIndex p
  else EmptyString.

End posixpath.

(** ** Bytes on the wire, files, exceptions *)

(** An entry of [_headers_buffer].  The handler appends encoded lines; the
    lines are kept apart here and [encode_line] gives their bytes. *)
Inductive header_line : Type :=
| StatusLine (protocol_version : string) (code : nat) (message : string)
| HeaderField (keyword value : string)
| BlankLine.

(** ["%s %d %s\r\n"], ["%s: %s\r\n"] and [b"\r\n"]. *)
Definition encode_line (l : header_line) : string :=
  match l with
  | StatusLine v code message => v ++ " " ++ Str.of_nat code ++ " " ++ message ++ Str.CRLF
  | HeaderField keyword value => keyword ++ ": " ++ value ++ Str.CRLF
  | BlankLine => Str.CRLF
  end.

(** One call of [wfile.write]: a flushed header block or body bytes. *)
Inductive chunk : Type :=
| Head (lines : list header_line)
| Body (data : string).

Definition encode_chunk (c : chunk) : string :=
  match c with
  | Head lines => String.concat EmptyString (map encode_line lines)
  | Body data => data
  end.

(** The bytes a client receives. *)
Definition wire (w : list chunk) : string :=
  String.concat EmptyString (map encode_chunk w).

Definition head_lines (w : list chunk) : list header_line :=
  flat_map (fun c => match c with Head lines => lines | Body _ => [] end) w.

(** The status code of the response: that of its status line, if it has one. *)
Definition status (w : list chunk) : option nat :=
  match head_lines w with
  | StatusLine _ code _ :: _ => Some code
  | _ => None
  end.

(** The header fields of the response, in the order sent. *)
Definition response_headers (w : list chunk) : list (string * string) :=
  flat_map (fun l => match l with HeaderField k v => [(k, v)] | _ => [] end)
           (head_lines w).

(** The body of the response. *)
Definition body (w : list chunk) : string :=
  String.concat EmptyString
    (flat_map (fun c => match c with Body data => [data] | Head _ => [] end) w).

(** An open regular file: its bytes and [os.fstat]'s modification time, in
    whole seconds.  [st_size] is the length of the content. *)
Record File : Type := { content : string; st_mtime : Z }.

Definition st_size (f : File) : nat := String.length (content f).

Inductive exception : Type :=
| OSError
| ValueError
| KeyboardInterrupt
| SystemExit (code : Z).

(** [isinstance(e, Exception)]: [KeyboardInterrupt] and [SystemExit] derive
    from [BaseException] only. *)
Definition is_Exception (e : exception) : bool :=
  match e with
  | OSError | ValueError => true
  | KeyboardInterrupt | SystemExit _ => false
  end.

(** The result of a call that may raise. *)
Inductive returned (A : Type) : Type :=
| Return (a : A)
| Raise (e : exception).
Arguments Return {A} a.
Arguments Raise {A} e.

(** [open(path, 'rb')]: the file, or [OSError] for a missing or unreadable
    file or a directory, or [ValueError] for a name with an embedded null
    byte. *)
Inductive open_result : Type :=
| Opened (f : File)
| OpenOSError
| OpenValueError.

(** What the operating system answers: [os.path.isdir], [os.path.isfile],
    [os.path.islink], [os.listdir] ([None] for [OSError]) and [open]. *)
Record FileSystem : Type := {
  isdir : string -> bool;
  isfile : string -> bool;
  islink : string -> bool;
  listdir : string -> option (list string);
  open_rb : string -> open_result;
}.

(** Library functions taken as given. *)
Record Platform : Type := {
  (** [urllib.parse.unquote] on a string that contains ['%'] *)
  decode_escapes : string -> string;
  (** [urllib.parse.quote] *)
  quote : string -> string;
  (** [urllib.parse.urlsplit(url).path] *)
  urlsplit_path : string -> string;
  (** [urlunsplit] of the parts of [url] with ['/'] appended to the path *)
  urlunsplit_slash : string -> string;
  (** [repr] of a string *)
  repr : string -> string;
  (** [mimetypes.guess_type(path)[0]] *)
  mimetypes_guess_type : string -> option string;
  (** [date_time_string(timestamp)]; [None] is the current time *)
  date_time_string : option Z -> string;
  (** [email.utils.parsedate_to_datetime] on an [If-Modified-Since] value:
      the time in seconds when the value is well formed and carries no time
      zone or UTC, [None] otherwise *)
  parsedate_utc : string -> option Z;
  (** [version_string()] *)
  version_string : string;
  (** [sys.getfilesystemencoding()] *)
  getfilesystemencoding : string;
}.

(** ** The request handler object *)

(** The result of [parse_request] on a request that parses: what it stores in
    [self.command], [self.path], [self.request_version] and [self.headers].
    A request line of two words, [GET <path>], leaves [request_version] at
    [default_request_version], which is ["HTTP/0.9"]. *)
Record Request : Type := {
  req_command : string;
  req_path : string;
  req_version : string;
  req_headers : list (string * string);
}.

Record Handler : Type := {
  directory : string;
  command : string;
  path : string;
  request_version : string;
  headers : list (string * string);
  _headers_buffer : list header_line;
  wfile : list chunk;
  close_connection : bool;
}.

Definition set_path (p : string) (self : Handler) : Handler :=
  {| directory := directory self; command := command self; path := p;
     request_version := request_version self; headers := headers self;
     _headers_buffer := _headers_buffer self; wfile := wfile self;
     close_connection := close_connection self |}.

Definition set_headers_buffer (b : list header_line) (self : Handler) : Handler :=
  {| directory := directory self; command := command self; path := path self;
     request_version := request_version self; headers := headers self;
     _headers_buffer := b; wfile := wfile self;
     close_connection := close_connection self |}.

Definition set_close_connection (b : bool) (self : Handler) : Handler :=
  {| directory := directory self; command := command self; path := path self;
     request_version := request_version self; headers := headers self;
     _headers_buffer := _headers_buffer self; wfile := wfile self;
     close_connection := b |}.

(** [self.wfile.write(data)] *)
Definition write (c : chunk) (self : Handler) : Handler :=
  {| directory := directory self; command := command self; path := path self;
     request_version := request_version self; headers := headers self;
     _headers_buffer := _headers_buffer self; wfile := (wfile self ++ [c])%list;
     close_connection := close_connection self |}.

(** [name in self.headers] and [self.headers[name]]: header names compare
    without regard to case. *)
Definition get_header (name : string) (hs : list (string * string)) : option string :=
  match find (fun kv => Str.lower (fst kv) =? Str.lower name) hs with
  | Some kv => Some (snd kv)
  | None => None
  end.

(** [html.escape(s, quote=False)] *)
Definition html_escape (s : string) : string :=
  Str.replace ">" "&gt;" (Str.replace "<" "&lt;" (Str.replace "&" "&amp;" s)).

(** ** [http.server.BaseHTTPRequestHandler] *)

Module BaseHTTPRequestHandler.

Definition protocol_version : string := "HTTP/1.0".

(** The entries of [responses] for the status codes this server sends:
    short and long message. *)
Definition responses (code : nat) : option (string * string) :=
  match code with
  | 200 => Some ("OK", "Request fulfilled, document follows")
  | 301 => Some ("Moved Permanently", "Object moved permanently -- see URI list")
  | 304 => Some ("Not Modified", "Document has not changed since given time")
  | 404 => Some ("Not Found", "Nothing matches the given URI")
  | 501 => Some ("Not Implemented", "Server does not support this operation")
  | _ => None
  end.

Definition error_content_type : string := "text/html;charset=utf-8".

(** [error_message_format % {'code': code, 'message': message, 'explain': explain}] *)
Definition error_message (code : nat) (message explain : string) : string :=
  String.concat (String Str.LF EmptyString)
    [ "<!DOCTYPE HTML>";
      "<html lang=" ++ Str.DQUOTE ++ "en" ++ Str.DQUOTE ++ ">";
      "    <head>";
      "        <meta charset=" ++ Str.DQUOTE ++ "utf-8" ++ Str.DQUOTE ++ ">";
      "        <title>Error response</title>";
      "    </head>";
      "    <body>";
      "        <h1>Error response</h1>";
      "        <p>Error code: " ++ Str.of_nat code ++ "</p>";
      "        <p>Message: " ++ message ++ ".</p>";
      "        <p>Error code explanation: " ++ Str.of_nat code ++ " - " ++ explain ++ ".</p>";
      "    </body>";
      "</html>";
      EmptyString ].

Definition send_response_only (code : nat) (message : option string)
    (self : Handler) : Handler :=
  if negb (request_version self =? "HTTP/0.9") then
    let message :=
      match message with
      | Some m => m
      | None => match responses code with Some (short, _) => short | None => EmptyString end
      end in
    set_headers_buffer
      (_headers_buffer self ++ [StatusLine protocol_version code message])%list self
  else self.

Definition send_header (keyword value : string) (self : Handler) : Handler :=
  let self :=
    if negb (request_version self =? "HTTP/0.9") then
      set_headers_buffer (_headers_buffer self ++ [HeaderField keyword value])%list self
    else self in
  if Str.lower keyword =? "connection" then
    if Str.lower value =? "close" then set_close_connection true self
    else if Str.lower value =? "keep-alive" then set_close_connection false self
    else self
  else self.

Definition flush_headers (self : Handler) : Handler :=
  set_headers_buffer [] (write (Head (_headers_buffer self)) self).

Definition end_headers (self : Handler) : Handler :=
  if negb (request_version self =? "HTTP/0.9") then
    flush_headers (set_headers_buffer (_headers_buffer self ++ [BlankLine])%list self)
  else self.

Section Methods.

Variable P : Platform.
(** [self.end_headers], which a subclass may override. *)
Variable self_end_headers : Handler -> Handler.
(** [getattr(self, name)] for a method name [do_...]; [None] when
    [hasattr(self, name)] is false. *)
Variable self_getattr : string -> option (Handler -> Handler * returned unit).

Definition send_response (code : nat) (message : option string)
    (self : Handler) : Handler :=
  let self := send_response_only code message self in
  let self := send_header "Server" (version_string P) self in
  send_header "Date" (date_time_string P None) self.

Definition send_error (code : nat) (message : option string) (self : Handler)
  : Handler :=
  let '(shortmsg, longmsg) :=
    match responses code with Some sl => sl | None => ("???", "???") end in
  let message := match message with Some m => m | None => shortmsg end in
  let explain := longmsg in
  let self := send_response code (Some message) self in
  let self := send_header "Connection" "close" self in
  let has_body :=
    (200 <=? code)%nat
    && negb ((code =? 204)%nat || (code =? 205)%nat || (code =? 304)%nat) in
  let content := error_message code (html_escape message) (html_escape explain) in
  let self :=
    if has_body then
      let self := send_header "Content-Type" error_content_type self in
      send_header "Content-Length" (Str.of_nat (String.length content)) self
    else self in
  let self := self_end_headers self in
  if negb (command self =? "HEAD") && has_body && negb (Str.is_empty content)
  then write (Body content) self
  else self.

(** [parse_request] on a request that parses.  [close_connection] is set and
    stays set: it is cleared only when [protocol_version] is at least
    ["HTTP/1.1"]. *)
Definition parse_request (r : Request) (self : Handler) : Handler :=
  {| directory := directory self; command := req_command r; path := req_path r;
     request_version := req_version r; headers := req_headers r;
     _headers_buffer := _headers_buffer self; wfile := wfile self;
     close_connection := true |}.

(** The end of [handle_one_request]: the method [do_<command>] is looked up
    and called. *)
Definition call_method (self : Handler) : Handler * returned unit :=
  match self_getattr ("do_" ++ command self) with
  | None =>
      (send_error 501
         (Some ("Unsupported method (" ++ repr P (command self) ++ ")")) self,
       Return tt)
  | Some method => method self
  end.

(** [handle_one_request]; [raw] is [None] when the client sent nothing. *)
Definition handle_one_request (raw : option Request) (self : Handler)
  : Handler * returned unit :=
  match raw with
  | None => (set_close_connection true self, Return tt)
  | Some r => call_method (parse_request r self)
  end.

Fixpoint handle_requests (rfile : list Request) (self : Handler)
  : Handler * returned unit :=
  match rfile with
  | [] => handle_one_request None self
  | r :: rest =>
      let '(self, res) := handle_one_request (Some r) self in
      match res with
      | Raise e => (self, Raise e)
      | Return _ =>
          if close_connection self then (self, Return tt)
          else handle_requests rest self
      end
  end.

(** [handle]: the requests of one connection, [rfile] holding those that the
    client sends. *)
Definition handle (rfile : list Request) (self : Handler) : Handler * returned unit :=
  handle_requests rfile (set_close_connection true self).

End Methods.

End BaseHTTPRequestHandler.

(** ** [http.server.SimpleHTTPRequestHandler] *)

Module SimpleHTTPRequestHandler.

Definition extensions_map (ext : string) : option string :=
  if ext =? ".gz" then Some "application/gzip"
  else if ext =? ".Z" then Some "application/octet-stream"
  else if ext =? ".bz2" then Some "application/x-bzip2"
  else if ext =? ".xz" then Some "application/x-xz"
  else None.

(** [list.sort(key=lambda a: a.lower())]: a stable sort. *)
Fixpoint insert_sorted (x : string) (l : list string) : list string :=
  match l with
  | [] => [x]
  | y :: l' =>
      if String.ltb (Str.lower x) (Str.lower y) then x :: l
      else y :: insert_sorted x l'
  end.

Definition sort_lower (l : list string) : list string :=
  fold_left (fun acc x => insert_sorted x acc) l [].

Section Methods.

Variable P : Platform.
Variable FS : FileSystem.
Variable self_end_headers : Handler -> Handler.

Definition send_response := BaseHTTPRequestHandler.send_response P.
Definition send_error := BaseHTTPRequestHandler.send_error P self_end_headers.
Definition send_header := BaseHTTPRequestHandler.send_header.

(** [urllib.parse.unquote]: a string without ['%'] is returned as it is. *)
Definition unquote (s : string) : string :=
  if negb (Str.contains "%" s) then s else decode_escapes P s.

Definition guess_type (path : string) : string :=
  let ext := posixpath.splitext_ext path in
  match extensions_map ext with
  | Some t => t
  | None =>
      match extensions_map (Str.lower ext) with
      | Some t => t
      | None =>
          match mimetypes_guess_type P path with
          | Some guess => if Str.is_empty guess then "application/octet-stream" else guess
          | None => "application/octet-stream"
          end
      end
  end.

(** The loop of [translate_path] over the words of the normalised path. *)
Definition add_word (path word : string) : string :=
  if negb (Str.is_empty (posixpath.dirname word)) || (word =? ".") || (word =? "..")
  then path
  else posixpath.join path word.

Definition translate_path (path : string) (self : Handler) : string :=
  let path := Str.before "?" path in
  let path := Str.before "#" path in
  let trailing_slash := Str.endswith (Str.rstrip path) "/" in
  let path := unquote path in
  let path := posixpath.normpath path in
  let words := Str.split "/" path in
  let words := filter (fun w => negb (Str.is_empty w)) words in
  let path := fold_left add_word words (directory self) in
  if trailing_slash then path ++ "/" else path.

(** One [<li>] line of the listing. *)
Definition list_item (path name : string) : string :=
  let fullname := posixpath.join path name in
  let displayname := name in
  let linkname := name in
  let displayname := if isdir FS fullname then name ++ "/" else displayname in
  let linkname := if isdir FS fullname then name ++ "/" else linkname in
  let displayname := if islink FS fullname then name ++ "@" else displayname in
  "<li><a href=" ++ Str.DQUOTE ++ quote P linkname ++ Str.DQUOTE ++ ">"
  ++ html_escape displayname ++ "</a></li>".

(** The page that [list_directory] builds for the names [names]. *)
Definition listing (dirpath : string) (self : Handler) (names : list string) : string :=
  let names := sort_lower names in
  let displaypath := html_escape (unquote (path self)) in
  let enc := getfilesystemencoding P in
  let title := "Directory listing for " ++ displaypath in
  let nl := String Str.LF EmptyString in
  let top :=
    [ "<!DOCTYPE HTML>";
      "<html lang=" ++ Str.DQUOTE ++ "en" ++ Str.DQUOTE ++ ">";
      "<head>";
      "<meta charset=" ++ Str.DQUOTE ++ enc ++ Str.DQUOTE ++ ">";
      "<title>" ++ title ++ "</title>" ++ nl ++ "</head>";
      "<body>" ++ nl ++ "<h1>" ++ title ++ "</h1>";
      "<hr>" ++ nl ++ "<ul>" ] in
  let bottom := [ "</ul>" ++ nl ++ "<hr>" ++ nl ++ "</body>" ++ nl ++ "</html>" ++ nl ] in
  let r := List.app top (List.app (map (list_item dirpath) names) bottom) in
  String.concat nl r.

(** [list_directory]: the headers are sent and the listing is returned for
    the caller to copy. *)
Definition list_directory (dirpath : string) (self : Handler)
  : Handler * option string :=
  match listdir FS dirpath with
  | None => (send_error 404 (Some "No permission to list directory") self, None)
  | Some names =>
      let encoded := listing dirpath self names in
      let enc := getfilesystemencoding P in
      let self := send_response 200 None self in
      let self := send_header "Content-type" ("text/html; charset=" ++ enc) self in
      let self := send_header "Content-Length" (Str.of_nat (String.length encoded)) self in
      let self := self_end_headers self in
      (self, Some encoded)
  end.

(** The test on [If-Modified-Since] in [send_head]: the header is present,
    [If-None-Match] is not, the value parses to a UTC time, and the file was
    not modified after it. *)
Definition not_modified (f : File) (headers : list (string * string)) : bool :=
  match get_header "If-Modified-Since" headers,
        get_header "If-None-Match" headers with
  | Some value, None =>
      match parsedate_utc P value with
      | Some ims => (st_mtime f <=? ims)%Z
      | None => false
      end
  | _, _ => false
  end.

(** [send_head], from [ctype = self.guess_type(path)] on. *)
Definition send_head_file (path : string) (self : Handler)
  : Handler * returned (option string) :=
  let ctype := guess_type path in
  if Str.endswith path "/" then
    (send_error 404 (Some "File not found") self, Return None)
  else
    match open_rb FS path with
    | OpenOSError => (send_error 404 (Some "File not found") self, Return None)
    | OpenValueError => (self, Raise ValueError)
    | Opened f =>
        if not_modified f (headers self) then
          let self := send_response 304 None self in
          let self := self_end_headers self in
          (self, Return None)
        else
          let self := send_response 200 None self in
          let self := send_header "Content-type" ctype self in
          let self := send_header "Content-Length" (Str.of_nat (st_size f)) self in
          let self := send_header "Last-Modified"
                        (date_time_string P (Some (st_mtime f))) self in
          let self := self_end_headers self in
          (self, Return (Some (content f)))
    end.

(** [send_head]: the result is the content of the file object to copy, or
    [None]. *)
Definition send_head (self : Handler) : Handler * returned (option string) :=
  let fspath := translate_path (path self) self in
  if isdir FS fspath then
    if negb (Str.endswith (urlsplit_path P (path self)) "/") then
      let self := send_response 301 None self in
      let self := send_header "Location" (urlunsplit_slash P (path self)) self in
      let self := send_header "Content-Length" "0" self in
      let self := self_end_headers self in
      (self, Return None)
    else if isfile FS (posixpath.join fspath "index.html") then
      send_head_file (posixpath.join fspath "index.html") self
    else if isfile FS (posixpath.join fspath "index.htm") then
      send_head_file (posixpath.join fspath "index.htm") self
    else
      let '(self, f) := list_directory fspath self in
      (self, Return f)
  else send_head_file fspath self.

(** [copyfile(f, self.wfile)]: [shutil.copyfileobj] writes what it reads,
    and nothing for an empty source. *)
Definition copyfile (data : string) (self : Handler) : Handler :=
  if Str.is_empty data then self else write (Body data) self.

Definition do_GET (self : Handler) : Handler * returned unit :=
  match send_head self with
  | (self, Raise e) => (self, Raise e)
  | (self, Return (Some f)) => (copyfile f self, Return tt)
  | (self, Return None) => (self, Return tt)
  end.

Definition do_HEAD (self : Handler) : Handler * returned unit :=
  match send_head self with
  | (self, Raise e) => (self, Raise e)
  | (self, Return _) => (self, Return tt)
  end.

End Methods.

End SimpleHTTPRequestHandler.

(** ** [socketserver] *)

(** A computation of the process: it returns, raises, or never comes back
    (it waits for an event that does not come). *)
Inductive run (A : Type) : Type :=
| Returns (a : A)
| Raises (e : exception)
| Blocks.
Arguments Returns {A} a.
Arguments Raises {A} e.
Arguments Blocks {A}.

(** What the process has done so far that can be seen from outside: the
    lines printed, the bytes sent on each accepted connection (in the order
    of the connections), and whether the listening socket is open. *)
Record Process : Type := {
  stdout : list string;
  stderr : list string;
  sent : list (list chunk);
  listening : bool;
}.

Definition print (line : string) (io : Process) : Process :=
  {| stdout := (stdout io ++ [line])%list; stderr := stderr io;
     sent := sent io; listening := listening io |}.

Definition print_err (line : string) (io : Process) : Process :=
  {| stdout := stdout io; stderr := (stderr io ++ [line])%list;
     sent := sent io; listening := listening io |}.

Definition send (w : list chunk) (io : Process) : Process :=
  {| stdout := stdout io; stderr := stderr io;
     sent := (sent io ++ [w])%list; listening := listening io |}.

Definition set_listening (b : bool) (io : Process) : Process :=
  {| stdout := stdout io; stderr := stderr io; sent := sent io; listening := b |}.

Definition exception_name (e : exception) : string :=
  match e with
  | OSError => "OSError"
  | ValueError => "ValueError"
  | KeyboardInterrupt => "KeyboardInterrupt"
  | SystemExit _ => "SystemExit"
  end.

(** [traceback.print_exc()]: the first line and the line that names the
    exception. *)
Definition print_exc (e : exception) (io : Process) : Process :=
  print_err (exception_name e) (print_err "Traceback (most recent call last):" io).

(** What the selector of [serve_forever] reports, one entry for each call of
    [select]: nothing within the poll interval, a connection to accept (with
    the requests its client sends), or the interrupt signal, which raises
    [KeyboardInterrupt]. *)
Inductive event : Type :=
| Idle
| Connection (rfile : list Request)
| Interrupt.

Module socketserver.

(** The two private attributes of [BaseServer]: the flag
    [__shutdown_request] and the [threading.Event] [__is_shut_down]. *)
Record TCPServer : Type := {
  shutdown_request_flag : bool;
  is_shut_down : bool;
}.

(** [server_close] *)
Definition server_close (io : Process) : Process := set_listening false io.

(** [TCPServer.__init__]: the socket is bound and listens; when binding
    raises, the socket is closed and the exception is raised again. *)
Definition __init__ (bind : returned unit) (io : Process)
  : Process * returned TCPServer :=
  match bind with
  | Return _ =>
      (set_listening true io,
       Return {| shutdown_request_flag := false; is_shut_down := false |})
  | Raise e => (server_close io, Raise e)
  end.

Section Server.

(** [RequestHandlerClass(request, client_address, self)]: the handler object
    is created and handles the connection in its constructor. *)
Variable RequestHandlerClass : list Request -> Handler * returned unit.

(** [handle_error] *)
Definition handle_error (e : exception) (io : Process) : Process :=
  let dashes := "----------------------------------------" in
  let io := print_err dashes io in
  let io := print_err "Exception occurred during processing of request from" io in
  let io := print_exc e io in
  print_err dashes io.

(** [_handle_request_noblock], with [process_request], [finish_request] and
    [shutdown_request]. *)
Definition _handle_request_noblock (rfile : list Request) (io : Process)
  : Process * returned unit :=
  let '(handler, res) := RequestHandlerClass rfile in
  let io := send (wfile handler) io in
  match res with
  | Return _ => (io, Return tt)
  | Raise e =>
      if is_Exception e then (handle_error e io, Return tt)
      else (io, Raise e)
  end.

(** The [while not self.__shutdown_request] loop of [serve_forever]. *)
Fixpoint serve_loop (events : list event) (self : TCPServer) (io : Process)
  : Process * run unit :=
  if shutdown_request_flag self then (io, Returns tt)
  else
    match events with
    | [] => (io, Blocks)
    | Interrupt :: _ => (io, Raises KeyboardInterrupt)
    | Idle :: rest => serve_loop rest self io
    | Connection rfile :: rest =>
        match _handle_request_noblock rfile io with
        | (io, Return _) => serve_loop rest self io
        | (io, Raise e) => (io, Raises e)
        end
    end.

(** [serve_forever]: the event is cleared, the loop runs, and the [finally]
    clause resets the flag and sets the event. *)
Definition serve_forever (events : list event) (self : TCPServer) (io : Process)
  : TCPServer * Process * run unit :=
  let self := {| shutdown_request_flag := shutdown_request_flag self;
                 is_shut_down := false |} in
  match serve_loop events self io with
  | (io, Blocks) => (self, io, Blocks)
  | (io, r) => ({| shutdown_request_flag := false; is_shut_down := true |}, io, r)
  end.

(** [shutdown]: sets the flag and waits for the event. *)
Definition shutdown (self : TCPServer) : TCPServer * run unit :=
  let self := {| shutdown_request_flag := true; is_shut_down := is_shut_down self |} in
  if is_shut_down self then (self, Returns tt) else (self, Blocks).

End Server.

End socketserver.

(** ** The program: [src/server/load.py] *)

(** What the program finds when it starts. *)
Record Env : Type := {
  platform : Platform;
  fs : FileSystem;
  (** [os.path.abspath(__file__)] *)
  abspath_file : string;
  (** [os.chdir] *)
  chdir : string -> returned unit;
  (** binding the listening socket to [("", port)] *)
  server_bind : N -> returned unit;
}.

Definition PORT : N := 8000%N.

Definition DIRECTORY (env : Env) : string :=
  posixpath.dirname (posixpath.dirname (posixpath.dirname (abspath_file env))).

Module MissionControlHandler.

Definition end_headers (self : Handler) : Handler :=
  let self := BaseHTTPRequestHandler.send_header "Access-Control-Allow-Origin" "*" self in
  let self := BaseHTTPRequestHandler.send_header "Access-Control-Allow-Methods" "GET, OPTIONS" self in
  let self := BaseHTTPRequestHandler.send_header "Access-Control-Allow-Headers" "Content-Type" self in
  let self := BaseHTTPRequestHandler.send_header "Cache-Control" "no-store, no-cache, must-revalidate" self in
  BaseHTTPRequestHandler.end_headers self.

Section Methods.

Variable env : Env.

Definition do_GET (self : Handler) : Handler * returned unit :=
  let self := if path self =? "/" then set_path "/src/html/index.html" self else self in
  SimpleHTTPRequestHandler.do_GET (platform env) (fs env) end_headers self.

(** The methods [do_...] of the class: [do_GET] is its own, [do_HEAD] is
    inherited from [SimpleHTTPRequestHandler], and there is no other. *)
Definition getattr (name : string) : option (Handler -> Handler * returned unit) :=
  if name =? "do_GET" then Some do_GET
  else if name =? "do_HEAD" then
    Some (SimpleHTTPRequestHandler.do_HEAD (platform env) (fs env) end_headers)
  else None.

(** [__init__]: the object is created with [directory=DIRECTORY] and
    handles the connection. *)
Definition __init__ (rfile : list Request) : Handler * returned unit :=
  BaseHTTPRequestHandler.handle (platform env) end_headers getattr rfile
    {| directory := DIRECTORY env; command := EmptyString; path := EmptyString;
       request_version := EmptyString; headers := []; _headers_buffer := [];
       wfile := []; close_connection := true |}.

End Methods.

End MissionControlHandler.

Definition started : Process :=
  {| stdout := []; stderr := []; sent := []; listening := false |}.

(** [main], run on the events that the selector reports. *)
Definition main (env : Env) (events : list event) : Process * run unit :=
  let io := started in
  match chdir env (DIRECTORY env) with
  | Raise e => (io, Raises e)
  | Return _ =>
      match socketserver.__init__ (server_bind env PORT) io with
      | (io, Raise e) => (io, Raises e)
      | (io, Return httpd) =>
          let io := print "Mission Control Server Starting..." io in
          let io := print ("Serving from: " ++ DIRECTORY env) io in
          let io := print ("Server running at: http://localhost:" ++ Str.of_N PORT) io in
          let io := print "Press Ctrl+C to stop the server" io in
          let '(httpd, io, r) :=
            socketserver.serve_forever (MissionControlHandler.__init__ env)
              events httpd io in
          let '(io, r) :=
            match r with
            | Raises KeyboardInterrupt =>
                let io :=
                  print (String Str.LF (String Str.LF "Shutting down server...")) io in
                match socketserver.shutdown httpd with
                | (_, Returns _) => (io, Raises (SystemExit 0))
                | (_, r) => (io, r)
                end
            | _ => (io, r)
            end in
          match r with
          | Blocks => (io, Blocks)
          | _ => (socketserver.server_close io, r)
          end
      end
  end.

(** The interpreter running [main()] as the script: the exit status of the
    process, or [None] while it has not exited.  An exception that is not
    caught is printed with its traceback and gives status 1; [SystemExit]
    gives its code. *)
Definition python (env : Env) (events : list event) : Process * option Z :=
  match main env events with
  | (io, Returns _) => (io, Some 0%Z)
  | (io, Raises (SystemExit code)) => (io, Some code)
  | (io, Raises e) => (print_exc e io, Some 1%Z)
  | (io, Blocks) => (io, None)
  end.

(** ** A deployment to run the program on *)

Module Example.

Definition root : string := "/srv/mission-control".

(** The library functions on the inputs of the examples below. *)
Definition library : Platform := {|
  decode_escapes := fun s => s;
  quote := fun s => s;
  urlsplit_path := fun url => Str.before "?" (Str.before "#" url);
  urlunsplit_slash := fun url => Str.before "?" (Str.before "#" url) ++ "/";
  repr := fun s => "'" ++ s ++ "'";
  mimetypes_guess_type := fun p =>
    if posixpath.splitext_ext p =? ".html" then Some "text/html"
    else if posixpath.splitext_ext p =? ".txt" then Some "text/plain"
    else None;
  date_time_string := fun t =>
    match t with
    | None => "Wed, 04 Nov 2026 12:00:00 GMT"
    | Some _ => "Thu, 01 Jan 1970 00:00:00 GMT"
    end;
  parsedate_utc := fun v =>
    if v =? "Wed, 04 Nov 2026 11:00:00 GMT" then Some 1793790000%Z else None;
  version_string := "SimpleHTTP/0.6 Python/3.11.2";
  getfilesystemencoding := "utf-8";
|}.

Definition directories : list string :=
  [ "/"; "/srv"; root; root ++ "/src"; root ++ "/src/html"; root ++ "/src/server" ].

(** The files, with the content of the one that lies outside the root. *)
Definition files_with (outside : string) : list (string * File) :=
  [ (root ++ "/src/html/index.html", {| content := "<h1>ok</h1>"; st_mtime := 0 |});
    (root ++ "/src/server/load.py", {| content := "#!/usr/bin/env python3"; st_mtime := 0 |});
    (root ++ "/secret.txt", {| content := "inside the root"; st_mtime := 0 |});
    ("/secret.txt", {| content := outside; st_mtime := 0 |}) ].

Definition files : list (string * File) := files_with "outside the root".

Definition entries : list (string * list string) :=
  [ ("/", ["srv"; "secret.txt"]);
    ("/srv", ["mission-control"]);
    (root, ["src"; "secret.txt"]);
    (root ++ "/src", ["server"; "html"]);
    (root ++ "/src/html", ["index.html"]);
    (root ++ "/src/server", ["load.py"]) ].

Definition lookup {A : Type} (k : string) (l : list (string * A)) : option A :=
  match find (fun kv => fst kv =? k) l with
  | Some kv => Some (snd kv)
  | None => None
  end.

(** A directory is named with or without trailing slashes. *)
Definition dirname_of (p : string) : string :=
  let q := Str.rstrip_if (Ascii.eqb "/") p in
  if Str.is_empty q then p else q.

Definition disk_with (outside : string) : FileSystem := {|
  isdir := fun p => existsb (String.eqb (dirname_of p)) directories;
  isfile := fun p =>
    match lookup p (files_with outside) with Some _ => true | None => false end;
  islink := fun _ => false;
  listdir := fun p => lookup (dirname_of p) entries;
  open_rb := fun p =>
    if Str.contains zero p then OpenValueError
    else match lookup p (files_with outside) with
         | Some f => Opened f
         | None => OpenOSError
         end;
|}.

Definition disk : FileSystem := disk_with "outside the root".

Definition env_with (outside : string) : Env := {|
  platform := library;
  fs := disk_with outside;
  abspath_file := root ++ "/src/server/load.py";
  chdir := fun _ => Return tt;
  server_bind := fun _ => Return tt;
|}.

Definition env : Env := env_with "outside the root".

Definition OPTIONS (target version : string) : Request :=
  {| req_command := "OPTIONS"; req_path := target; req_version := version;
     req_headers := [] |}.

(** The same deployment, with the port taken. *)
Definition env_port_in_use : Env := {|
  platform := library;
  fs := disk;
  abspath_file := root ++ "/src/server/load.py";
  chdir := fun _ => Return tt;
  server_bind := fun _ => Raise OSError;
|}.

Definition GET (target version : string) (hs : list (string * string)) : Request :=
  {| req_command := "GET"; req_path := target; req_version := version;
     req_headers := hs |}.

(** The handler object when [do_GET] is called for a request. *)
Definition on_GET (target version : string) (hs : list (string * string)) : Handler :=
  {| directory := DIRECTORY env; command := "GET"; path := target;
     request_version := version; headers := hs;
     _headers_buffer := []; wfile := []; close_connection := true |}.


Definition HEAD (target version : string) : Request :=
  {| req_command := "HEAD"; req_path := target; req_version := version;
     req_headers := [] |}.

(** A handler that has buffered a status line and a [Cache-Control] header
    of its own. *)
Definition buffering (version : string) : Handler :=
  {| directory := DIRECTORY env; command := "GET"; path := "/x"; request_version := version;
     headers := [];
     _headers_buffer := [ StatusLine "HTTP/1.0" 200 "OK";
                          HeaderField "Cache-Control" "max-age=60" ];
     wfile := []; close_connection := true |}.

(** The same deployment, with a root directory that cannot be entered. *)
Definition env_no_root : Env := {|
  platform := library;
  fs := disk;
  abspath_file := root ++ "/src/server/load.py";
  chdir := fun _ => Raise OSError;
  server_bind := fun _ => Return tt;
|}.

(** Four connections: a missing file, a method that is not allowed, a
    traversal attempt, and the root path. *)
Definition traffic : list event :=
  [ Connection [GET "/nope.txt" "HTTP/1.1" []];
    Connection [OPTIONS "/" "HTTP/1.1"];
    Idle;
    Connection [GET "/../../etc/passwd" "HTTP/1.1" []];
    Connection [GET "/" "HTTP/1.1" []] ].

End Example.

(** ** What the statements speak of *)

(** The four headers that [MissionControlHandler.end_headers] adds. *)
Definition augmentation_headers : list (string * string) :=
  [ ("Access-Control-Allow-Origin", "*");
    ("Access-Control-Allow-Methods", "GET, OPTIONS");
    ("Access-Control-Allow-Headers", "Content-Type");
    ("Cache-Control", "no-store, no-cache, must-revalidate") ].

(** A response carries the four headers. *)
Definition augmented (w : list chunk) : Prop :=
  forall h, In h augmentation_headers -> In h (response_headers w).

(** A handler that has sent nothing yet. *)
Definition fresh (self : Handler) : Prop :=
  _headers_buffer self = [] /\ wfile self = [].

(** The path that [MissionControlHandler.do_GET] hands to the file-serving
    logic. *)
Definition served_path (self : Handler) : string :=
  if path self =? "/" then "/src/html/index.html" else path self.

(** The bytes sent by [MissionControlHandler.do_GET]. *)
Definition GET_response (env : Env) (self : Handler) : list chunk :=
  wfile (fst (MissionControlHandler.do_GET env self)).

(** A name of one file or directory: not empty, not [.] or [..], no
    separator. *)
Definition simple_name (w : string) : bool :=
  negb (Str.is_empty w) && negb (w =? ".") && negb (w =? "..")
  && negb (Str.contains "/" w).

(** The file-system paths under the directory [d], as the handler writes
    them: [d] itself, a path under [d] joined with a simple name, and such a
    path with a trailing slash.  No such path has a parent-directory
    component after [d], so, in a file system without symbolic links, it
    names [d] or something inside it. *)
Inductive contained (d : string) : string -> Prop :=
| contained_root : contained d d
| contained_join (p w : string) :
    contained d p -> simple_name w = true -> contained d (posixpath.join p w)
| contained_slash (p : string) :
    contained d p -> contained d (p ++ "/").

(** Two states of the file system that differ outside [d] only. *)
Definition agree_under (d : string) (FS1 FS2 : FileSystem) : Prop :=
  forall p, contained d p ->
    isdir FS1 p = isdir FS2 p /\ isfile FS1 p = isfile FS2 p
    /\ islink FS1 p = islink FS2 p /\ listdir FS1 p = listdir FS2 p
    /\ open_rb FS1 p = open_rb FS2 p.

(** [os.listdir] returns names of directory entries. *)
Definition lists_names (FS : FileSystem) : Prop :=
  forall p names, listdir FS p = Some names -> forallb simple_name names = true.

(** No interrupt among the events. *)
Definition quiet (events : list event) : bool :=
  List.forallb (fun ev => match ev with Interrupt => false | _ => true end) events.

(** The connections among the events, in order. *)
Definition connections (events : list event) : list (list Request) :=
  flat_map (fun ev => match ev with Connection rfile => [rfile] | _ => [] end) events.

(** The bytes sent on a connection. *)
Definition answer (env : Env) (rfile : list Request) : list chunk :=
  wfile (fst (MissionControlHandler.__init__ env rfile)).

(** The handler object of a connection when the method for the request [r]
    is looked up: [parse_request] has stored the request and nothing is
    sent yet. *)
Definition dispatched (env : Env) (r : Request) : Handler :=
  {| directory := DIRECTORY env; command := req_command r; path := req_path r;
     request_version := req_version r; headers := req_headers r;
     _headers_buffer := []; wfile := []; close_connection := true |}.

(** The message of the 501 response. *)
Definition unsupported (env : Env) (r : Request) : string :=
  "Unsupported method (" ++ repr (platform env) (req_command r) ++ ")".

(** [b] is [a] with the same request and directory. *)
Definition unchanged (a b : Handler) : Prop :=
  directory b = directory a /\ command b = command a /\ path b = path a
  /\ request_version b = request_version a /\ headers b = headers a.

(** The header lines that reach the buffer: none for an HTTP/0.9 request. *)
Definition visible (self : Handler) (lines : list header_line) : list header_line :=
  if request_version self =? "HTTP/0.9" then [] else lines.

(** [b] is [a] after [lines] were added to the headers buffer. *)
Definition buffered (lines : list header_line) (a b : Handler) : Prop :=
  unchanged a b /\ wfile b = wfile a
  /\ _headers_buffer b = (_headers_buffer a ++ visible a lines)%list.

(** [b] is [a] after a response was written: the header block that ends
    with [lines], unless the request is HTTP/0.9, then the body chunks
    [data]. *)
Definition responded (lines : list header_line) (data : list string)
    (a b : Handler) : Prop :=
  unchanged a b
  /\ _headers_buffer b = (if request_version a =? "HTTP/0.9" then _headers_buffer a else [])
  /\ wfile b =
     (wfile a
      ++ (if request_version a =? "HTTP/0.9" then []
          else [Head (_headers_buffer a ++ lines)])
      ++ map Body data)%list.

(** The lines that [MissionControlHandler.end_headers] adds. *)
Definition augmentation_lines : list header_line :=
  (map (fun h => HeaderField (fst h) (snd h)) augmentation_headers ++ [BlankLine])%list.

(** The header block and the body of an error response. *)
Definition error_body (code : nat) (message : string) : string :=
  BaseHTTPRequestHandler.error_message code (html_escape message)
    (html_escape (snd (match BaseHTTPRequestHandler.responses code with
                       | Some sl => sl
                       | None => ("???", "???")
                       end))).

Definition error_lines (P : Platform) (code : nat) (message : string)
  : list header_line :=
  ([ StatusLine "HTTP/1.0" code message;
     HeaderField "Server" (version_string P);
     HeaderField "Date" (date_time_string P None);
     HeaderField "Connection" "close";
     HeaderField "Content-Type" "text/html;charset=utf-8";
     HeaderField "Content-Length" (Str.of_nat (String.length (error_body code message))) ]
   ++ augmentation_lines)%list.

(** The header blocks of the responses of [send_head]. *)
Definition ok_lines (P : Platform) (ctype : string) (f : File) : list header_line :=
  ([ StatusLine "HTTP/1.0" 200 "OK";
     HeaderField "Server" (version_string P);
     HeaderField "Date" (date_time_string P None);
     HeaderField "Content-type" ctype;
     HeaderField "Content-Length" (Str.of_nat (st_size f));
     HeaderField "Last-Modified" (date_time_string P (Some (st_mtime f))) ]
   ++ augmentation_lines)%list.

Definition not_modified_lines (P : Platform) : list header_line :=
  ([ StatusLine "HTTP/1.0" 304 "Not Modified";
     HeaderField "Server" (version_string P);
     HeaderField "Date" (date_time_string P None) ]
   ++ augmentation_lines)%list.

Definition redirect_lines (P : Platform) (url : string) : list header_line :=
  ([ StatusLine "HTTP/1.0" 301 "Moved Permanently";
     HeaderField "Server" (version_string P);
     HeaderField "Date" (date_time_string P None);
     HeaderField "Location" (urlunsplit_slash P url);
     HeaderField "Content-Length" "0" ]
   ++ augmentation_lines)%list.

Definition listing_lines (P : Platform) (page : string) : list header_line :=
  ([ StatusLine "HTTP/1.0" 200 "OK";
     HeaderField "Server" (version_string P);
     HeaderField "Date" (date_time_string P None);
     HeaderField "Content-type" ("text/html; charset=" ++ getfilesystemencoding P);
     HeaderField "Content-Length" (Str.of_nat (String.length page)) ]
   ++ augmentation_lines)%list.

(** [copyfile] writes one chunk, or none for an empty source. *)
Definition copied (data : string) : list string :=
  if Str.is_empty data then [] else [data].

(** A response that carries the four headers was written, or nothing was. *)
Definition answered (a b : Handler) : Prop :=
  (exists pre data, responded (pre ++ augmentation_lines) data a b)
  \/ wfile b = wfile a.

(** What [send_head] leaves: a response with the four headers, and no body
    yet when there is a file to copy; or nothing, when [open] raised. *)
Definition head_sent (self : Handler) (r : Handler * returned (option string)) : Prop :=
  (exists pre data res,
     responded (pre ++ augmentation_lines) data self (fst r)
     /\ snd r = Return res /\ (res <> None -> data = []))
  \/ r = (self, Raise ValueError).


(** The path in the file system that the request [r] resolves to. *)
Definition resolved_path (env : Env) (r : Request) : string :=
  SimpleHTTPRequestHandler.translate_path (platform env)
    (served_path (dispatched env r)) (dispatched env r).

(** What the process has printed when it starts to serve. *)
Definition banner (env : Env) : list string :=
  [ "Mission Control Server Starting...";
    "Serving from: " ++ DIRECTORY env;
    "Server running at: http://localhost:8000";
    "Press Ctrl+C to stop the server" ].

Definition shutdown_message : string :=
  String Str.LF (String Str.LF "Shutting down server...").

(** ** The kinds of response *)

(** The header lines of each response of the handler that come before the
    four headers of [end_headers]. *)
Definition error_front (P : Platform) (code : nat) (message : string)
  : list header_line :=
  [ StatusLine "HTTP/1.0" code message;
    HeaderField "Server" (version_string P);
    HeaderField "Date" (date_time_string P None);
    HeaderField "Connection" "close";
    HeaderField "Content-Type" "text/html;charset=utf-8";
    HeaderField "Content-Length" (Str.of_nat (String.length (error_body code message))) ].

Definition ok_front (P : Platform) (ctype : string) (f : File) : list header_line :=
  [ StatusLine "HTTP/1.0" 200 "OK";
    HeaderField "Server" (version_string P);
    HeaderField "Date" (date_time_string P None);
    HeaderField "Content-type" ctype;
    HeaderField "Content-Length" (Str.of_nat (st_size f));
    HeaderField "Last-Modified" (date_time_string P (Some (st_mtime f))) ].

Definition not_modified_front (P : Platform) : list header_line :=
  [ StatusLine "HTTP/1.0" 304 "Not Modified";
    HeaderField "Server" (version_string P);
    HeaderField "Date" (date_time_string P None) ].

Definition redirect_front (P : Platform) (url : string) : list header_line :=
  [ StatusLine "HTTP/1.0" 301 "Moved Permanently";
    HeaderField "Server" (version_string P);
    HeaderField "Date" (date_time_string P None);
    HeaderField "Location" (urlunsplit_slash P url);
    HeaderField "Content-Length" "0" ].

Definition listing_front (P : Platform) (page : string) : list header_line :=
  [ StatusLine "HTTP/1.0" 200 "OK";
    HeaderField "Server" (version_string P);
    HeaderField "Date" (date_time_string P None);
    HeaderField "Content-type" ("text/html; charset=" ++ getfilesystemencoding P);
    HeaderField "Content-Length" (Str.of_nat (String.length page)) ].

(** The responses that the handler sends: the header lines before the four
    headers, and the content that goes with them (sent as the body unless
    the request is a HEAD request).  [method] is the message of the 501
    response. *)
Inductive reply_kind (P : Platform) (method : string)
  : list header_line -> string -> Prop :=
| reply_not_found :
    reply_kind P method (error_front P 404 "File not found")
      (error_body 404 "File not found")
| reply_no_permission :
    reply_kind P method (error_front P 404 "No permission to list directory")
      (error_body 404 "No permission to list directory")
| reply_unsupported :
    reply_kind P method (error_front P 501 method) (error_body 501 method)
| reply_not_modified :
    reply_kind P method (not_modified_front P) EmptyString
| reply_file (ctype : string) (f : File) :
    reply_kind P method (ok_front P ctype f) (content f)
| reply_redirect (url : string) :
    reply_kind P method (redirect_front P url) EmptyString
| reply_listing (page : string) :
    reply_kind P method (listing_front P page) page.

(** The status codes of those responses. *)
Definition known_status (code : nat) : bool :=
  (code =? 200)%nat || (code =? 301)%nat || (code =? 304)%nat
  || (code =? 404)%nat || (code =? 501)%nat.

(** The body chunks of a response with the content [content]. *)
Definition body_chunks (command content : string) : list string :=
  if command =? "HEAD" then [] else copied content.

(** What [send_head] has done when it returns: an error response or a
    response without content is complete; for a file or a listing, the
    header block is sent and the content is returned to the caller. *)
Definition head_done (P : Platform) (method : string) (self : Handler)
    (r : Handler * returned (option string)) : Prop :=
  (exists front content,
     reply_kind P method front content
     /\ ((responded (front ++ augmentation_lines) (body_chunks (command self) content)
            self (fst r)
          /\ snd r = Return None)
         \/ (responded (front ++ augmentation_lines) [] self (fst r)
             /\ snd r = Return (Some content))))
  \/ r = (self, Raise ValueError).

(** What a connection with the one request [r] gets: a response of one of
    the kinds, or nothing when the handler raised. *)
Definition reply_of (env : Env) (r : Request) (front : list header_line)
    (content : string) : Prop :=
  reply_kind (platform env) (unsupported env r) front content
  /\ answer env [r]
     = ((if req_version r =? "HTTP/0.9" then []
         else [Head (front ++ augmentation_lines)])
        ++ map Body (body_chunks (req_command r) content))%list
  /\ snd (MissionControlHandler.__init__ env [r]) = Return tt.

(** The events without the polls that found nothing. *)
Definition busy (events : list event) : list event :=
  filter (fun ev => match ev with Idle => false | _ => true end) events.

(** What [handle_error] prints for an exception. *)
Definition error_report (e : exception) : list string :=
  [ "----------------------------------------";
    "Exception occurred during processing of request from";
    "Traceback (most recent call last):";
    exception_name e;
    "----------------------------------------" ].

(** Two handler objects that hold the same request but for its method, and
    have sent the same header lines. *)
Definition same_head (a b : Handler) : Prop :=
  directory a = directory b /\ path a = path b
  /\ request_version a = request_version b /\ headers a = headers b
  /\ _headers_buffer a = _headers_buffer b
  /\ head_lines (wfile a) = head_lines (wfile b).

(** The request [r] with the query string [q] added to its path. *)
Definition with_query (q : string) (r : Request) : Request :=
  {| req_command := req_command r; req_path := req_path r ++ "?" ++ q;
     req_version := req_version r; req_headers := req_headers r |}.

(** Two handler objects that hold the same request but for its path, and
    have sent the same bytes. *)
Definition same_reply (a b : Handler) : Prop :=
  command a = command b /\ request_version a = request_version b
  /\ headers a = headers b /\ _headers_buffer a = _headers_buffer b
  /\ wfile a = wfile b.

(** * Properties *)

(** ** The headers buffer *)

Lemma not_http09 (v : string) :
  v <> "HTTP/0.9" -> (v =? "HTTP/0.9") = false.
Proof. intros H. now apply String.eqb_neq. Qed.

Lemma error_message_not_empty (code : nat) (message explain : string) :
  Str.is_empty (BaseHTTPRequestHandler.error_message code message explain) = false.
Proof. reflexivity. Qed.

Lemma unchanged_trans a b c : unchanged a b -> unchanged b c -> unchanged a c.
Proof.
  unfold unchanged. intros (H1 & H2 & H3 & H4 & H5) (K1 & K2 & K3 & K4 & K5).
  repeat split; congruence.
Qed.

Lemma buffered_trans l1 l2 a b c :
  buffered l1 a b -> buffered l2 b c -> buffered (l1 ++ l2) a c.
Proof.
  unfold buffered, visible. intros (U1 & W1 & B1) (U2 & W2 & B2).
  split; [eapply unchanged_trans; eauto|]. split; [congruence|].
  rewrite B2, B1. destruct U1 as (_ & _ & _ & -> & _).
  destruct (request_version a =? "HTTP/0.9"); now rewrite <- app_assoc.
Qed.

Lemma send_header_buffered keyword value self :
  buffered [HeaderField keyword value] self
    (BaseHTTPRequestHandler.send_header keyword value self).
Proof.
  unfold buffered, visible, unchanged, BaseHTTPRequestHandler.send_header,
    set_headers_buffer, set_close_connection.
  destruct self as [d c p v hs buf w cc].
  cbn [directory command path request_version headers _headers_buffer wfile
       close_connection].
  destruct (v =? "HTTP/0.9"); cbn [negb];
    destruct (Str.lower keyword =? "connection");
    destruct (Str.lower value =? "close");
    destruct (Str.lower value =? "keep-alive");
    cbn [directory command path request_version headers _headers_buffer wfile
         close_connection];
    rewrite ?app_nil_r; repeat split.
Qed.

Lemma send_response_only_buffered code message self :
  buffered
    [StatusLine "HTTP/1.0" code
       match message with
       | Some m => m
       | None => match BaseHTTPRequestHandler.responses code with
                 | Some (short, _) => short
                 | None => EmptyString
                 end
       end] self
    (BaseHTTPRequestHandler.send_response_only code message self).
Proof.
  unfold buffered, visible, unchanged, BaseHTTPRequestHandler.send_response_only,
    set_headers_buffer.
  destruct self as [d c p v hs buf w cc].
  cbn [directory command path request_version headers _headers_buffer wfile
       close_connection].
  destruct (v =? "HTTP/0.9"); cbn [negb];
    cbn [directory command path request_version headers _headers_buffer wfile
         close_connection];
    rewrite ?app_nil_r; repeat split.
Qed.

Lemma send_response_buffered P code message self :
  buffered
    [StatusLine "HTTP/1.0" code
       match message with
       | Some m => m
       | None => match BaseHTTPRequestHandler.responses code with
                 | Some (short, _) => short
                 | None => EmptyString
                 end
       end;
     HeaderField "Server" (version_string P);
     HeaderField "Date" (date_time_string P None)] self
    (BaseHTTPRequestHandler.send_response P code message self).
Proof.
  unfold BaseHTTPRequestHandler.send_response.
  eapply (buffered_trans [_] [_; _]); [apply send_response_only_buffered|].
  eapply (buffered_trans [_] [_]); apply send_header_buffered.
Qed.

Lemma buffered_responded l1 l2 data a b c :
  buffered l1 a b -> responded l2 data b c -> responded (l1 ++ l2) data a c.
Proof.
  unfold buffered, responded, visible. intros (U1 & W1 & B1) (U2 & B2 & W2).
  split; [eapply unchanged_trans; eauto|].
  destruct U1 as (_ & _ & _ & Hv & _). rewrite Hv in B2, W2.
  rewrite B2, W2, W1, B1.
  destruct (request_version a =? "HTTP/0.9").
  - now rewrite app_nil_r.
  - now rewrite <- app_assoc.
Qed.

Lemma responded_write l data x a b :
  responded l data a b -> responded l (data ++ [x]) a (write (Body x) b).
Proof.
  unfold responded, unchanged, write. intros (U & B & W).
  destruct b as [d c p v hs buf w cc].
  cbn [directory command path request_version headers _headers_buffer wfile
       close_connection] in *.
  split; [exact U|]. split; [exact B|].
  rewrite W, map_app. cbn [map]. now rewrite <- !app_assoc.
Qed.

Lemma base_end_headers_responded self :
  responded [BlankLine] [] self (BaseHTTPRequestHandler.end_headers self).
Proof.
  unfold responded, unchanged, BaseHTTPRequestHandler.end_headers,
    BaseHTTPRequestHandler.flush_headers, write, set_headers_buffer.
  destruct self as [d c p v hs buf w cc].
  cbn [directory command path request_version headers _headers_buffer wfile
       close_connection].
  destruct (v =? "HTTP/0.9"); cbn [negb map];
    cbn [directory command path request_version headers _headers_buffer wfile
         close_connection];
    rewrite ?app_nil_r; repeat split.
Qed.

(** [MissionControlHandler.end_headers] ends the header block with the four
    headers and the blank line, and flushes it. *)
Lemma end_headers_responded self :
  responded augmentation_lines [] self (MissionControlHandler.end_headers self).
Proof.
  unfold MissionControlHandler.end_headers.
  change augmentation_lines with
    ([HeaderField "Access-Control-Allow-Origin" "*"]
     ++ [HeaderField "Access-Control-Allow-Methods" "GET, OPTIONS"]
     ++ [HeaderField "Access-Control-Allow-Headers" "Content-Type"]
     ++ [HeaderField "Cache-Control" "no-store, no-cache, must-revalidate"]
     ++ [BlankLine])%list.
  repeat (eapply buffered_responded; [apply send_header_buffered|]).
  apply base_end_headers_responded.
Qed.

Lemma responded_command l data a b : responded l data a b -> command b = command a.
Proof. now intros ((_ & H & _) & _). Qed.

(** [send_error] for a status code that carries a body. *)
Lemma send_error_responded P code message self :
  ((200 <=? code)%nat
   && negb ((code =? 204)%nat || (code =? 205)%nat || (code =? 304)%nat))%bool = true ->
  responded (error_lines P code message)
    (if command self =? "HEAD" then [] else [error_body code message]) self
    (BaseHTTPRequestHandler.send_error P MissionControlHandler.end_headers code
       (Some message) self).
Proof.
  intros Hbody.
  unfold BaseHTTPRequestHandler.send_error, error_lines, error_body.
  destruct (BaseHTTPRequestHandler.responses code) as [[short long]|];
    cbv zeta; cbn [snd]; rewrite Hbody;
    rewrite error_message_not_empty; cbn [negb andb].
  all: match goal with
       | |- context [MissionControlHandler.end_headers ?s] =>
           assert (R : responded
                         ([StatusLine "HTTP/1.0" code message;
                           HeaderField "Server" (version_string P);
                           HeaderField "Date" (date_time_string P None)]
                          ++ [HeaderField "Connection" "close"]
                          ++ [HeaderField "Content-Type" "text/html;charset=utf-8"]
                          ++ [HeaderField "Content-Length" _]
                          ++ augmentation_lines) [] self
                         (MissionControlHandler.end_headers s))
             by (eapply buffered_responded;
                 [exact (send_response_buffered P code (Some message) self)|];
                 repeat (eapply buffered_responded; [apply send_header_buffered|]);
                 apply end_headers_responded)
       end.
  all: rewrite (responded_command _ _ _ _ R).
  all: destruct (command self =? "HEAD"); cbn [negb];
    [exact R | apply (responded_write _ [] _ _ _ R)].
Qed.

(** ** The responses of [send_head] and [do_GET] *)

Section Responses.

Variable P : Platform.
Variable FS : FileSystem.

Abbreviation send_head_file := (SimpleHTTPRequestHandler.send_head_file P FS MissionControlHandler.end_headers).
Abbreviation send_head := (SimpleHTTPRequestHandler.send_head P FS MissionControlHandler.end_headers).
Abbreviation list_directory := (SimpleHTTPRequestHandler.list_directory P FS MissionControlHandler.end_headers).
Abbreviation lib_do_GET := (SimpleHTTPRequestHandler.do_GET P FS MissionControlHandler.end_headers).
Abbreviation lib_do_HEAD := (SimpleHTTPRequestHandler.do_HEAD P FS MissionControlHandler.end_headers).
Abbreviation translate_path := SimpleHTTPRequestHandler.translate_path.
Abbreviation guess_type := (SimpleHTTPRequestHandler.guess_type P).
Abbreviation not_modified := (SimpleHTTPRequestHandler.not_modified P).

Lemma not_found_responded message self :
  responded (error_lines P 404 message)
    (if command self =? "HEAD" then [] else [error_body 404 message]) self
    (SimpleHTTPRequestHandler.send_error P MissionControlHandler.end_headers 404
       (Some message) self).
Proof. apply send_error_responded. reflexivity. Qed.

Lemma send_head_file_not_found fspath self :
  Str.endswith fspath "/" = true \/ open_rb FS fspath = OpenOSError ->
  responded (error_lines P 404 "File not found")
    (if command self =? "HEAD" then [] else [error_body 404 "File not found"]) self
    (fst (send_head_file fspath self))
  /\ snd (send_head_file fspath self) = Return None.
Proof.
  intros H. unfold SimpleHTTPRequestHandler.send_head_file.
  destruct (Str.endswith fspath "/").
  - split; [apply not_found_responded | reflexivity].
  - destruct H as [H|H]; [discriminate|]. rewrite H.
    split; [apply not_found_responded | reflexivity].
Qed.

Lemma send_head_file_raises fspath self :
  Str.endswith fspath "/" = false -> open_rb FS fspath = OpenValueError ->
  send_head_file fspath self = (self, Raise ValueError).
Proof.
  intros H1 H2. unfold SimpleHTTPRequestHandler.send_head_file.
  now rewrite H1, H2.
Qed.

Lemma send_head_file_not_modified fspath f self :
  Str.endswith fspath "/" = false -> open_rb FS fspath = Opened f ->
  not_modified f (headers self) = true ->
  responded (not_modified_lines P) [] self (fst (send_head_file fspath self))
  /\ snd (send_head_file fspath self) = Return None.
Proof.
  intros H1 H2 H3. unfold SimpleHTTPRequestHandler.send_head_file.
  rewrite H1, H2, H3. cbn [fst snd]. split; [|reflexivity].
  unfold not_modified_lines.
  eapply buffered_responded;
    [exact (send_response_buffered P 304 None self) | apply end_headers_responded].
Qed.

Lemma send_head_file_ok fspath f self :
  Str.endswith fspath "/" = false -> open_rb FS fspath = Opened f ->
  not_modified f (headers self) = false ->
  responded (ok_lines P (guess_type fspath) f) [] self (fst (send_head_file fspath self))
  /\ snd (send_head_file fspath self) = Return (Some (content f)).
Proof.
  intros H1 H2 H3. unfold SimpleHTTPRequestHandler.send_head_file.
  rewrite H1, H2, H3. cbn [fst snd]. split; [|reflexivity].
  unfold ok_lines.
  change [StatusLine "HTTP/1.0" 200 "OK"; HeaderField "Server" (version_string P);
          HeaderField "Date" (date_time_string P None);
          HeaderField "Content-type" (guess_type fspath);
          HeaderField "Content-Length" (Str.of_nat (st_size f));
          HeaderField "Last-Modified" (date_time_string P (Some (st_mtime f)))]
    with ([StatusLine "HTTP/1.0" 200 "OK"; HeaderField "Server" (version_string P);
           HeaderField "Date" (date_time_string P None)]
          ++ [HeaderField "Content-type" (guess_type fspath)]
          ++ [HeaderField "Content-Length" (Str.of_nat (st_size f))]
          ++ [HeaderField "Last-Modified" (date_time_string P (Some (st_mtime f)))])%list.
  rewrite <- !app_assoc.
  eapply buffered_responded; [exact (send_response_buffered P 200 None self)|].
  repeat (eapply buffered_responded;
          [apply send_header_buffered|]).
  apply end_headers_responded.
Qed.

Lemma list_directory_listed dirpath names self :
  listdir FS dirpath = Some names ->
  responded (listing_lines P (SimpleHTTPRequestHandler.listing P FS dirpath self names))
    [] self (fst (list_directory dirpath self))
  /\ snd (list_directory dirpath self)
     = Some (SimpleHTTPRequestHandler.listing P FS dirpath self names).
Proof.
  intros H. unfold SimpleHTTPRequestHandler.list_directory. rewrite H.
  cbv zeta. cbn [fst snd]. split; [|reflexivity].
  unfold listing_lines.
  set (page := SimpleHTTPRequestHandler.listing P FS dirpath self names).
  change [StatusLine "HTTP/1.0" 200 "OK"; HeaderField "Server" (version_string P);
          HeaderField "Date" (date_time_string P None);
          HeaderField "Content-type" ("text/html; charset=" ++ getfilesystemencoding P);
          HeaderField "Content-Length" (Str.of_nat (String.length page))]
    with ([StatusLine "HTTP/1.0" 200 "OK"; HeaderField "Server" (version_string P);
           HeaderField "Date" (date_time_string P None)]
          ++ [HeaderField "Content-type" ("text/html; charset=" ++ getfilesystemencoding P)]
          ++ [HeaderField "Content-Length" (Str.of_nat (String.length page))])%list.
  rewrite <- !app_assoc.
  eapply buffered_responded; [exact (send_response_buffered P 200 None self)|].
  repeat (eapply buffered_responded; [apply send_header_buffered|]).
  apply end_headers_responded.
Qed.

Lemma list_directory_denied dirpath self :
  listdir FS dirpath = None ->
  responded (error_lines P 404 "No permission to list directory")
    (if command self =? "HEAD" then []
     else [error_body 404 "No permission to list directory"]) self
    (fst (list_directory dirpath self))
  /\ snd (list_directory dirpath self) = None.
Proof.
  intros H. unfold SimpleHTTPRequestHandler.list_directory. rewrite H.
  split; [apply not_found_responded | reflexivity].
Qed.

Lemma send_head_redirect self :
  isdir FS (translate_path P (path self) self) = true ->
  Str.endswith (urlsplit_path P (path self)) "/" = false ->
  responded (redirect_lines P (path self)) [] self (fst (send_head self))
  /\ snd (send_head self) = Return None.
Proof.
  intros H1 H2. unfold SimpleHTTPRequestHandler.send_head.
  rewrite H1, H2. cbn [negb fst snd]. split; [|reflexivity].
  unfold SimpleHTTPRequestHandler.send_response, SimpleHTTPRequestHandler.send_header.
  destruct (send_response_buffered P 301 None self) as ((_ & _ & -> & _) & _).
  unfold redirect_lines.
  change [StatusLine "HTTP/1.0" 301 "Moved Permanently";
          HeaderField "Server" (version_string P);
          HeaderField "Date" (date_time_string P None);
          HeaderField "Location" (urlunsplit_slash P (path self));
          HeaderField "Content-Length" "0"]
    with ([StatusLine "HTTP/1.0" 301 "Moved Permanently";
           HeaderField "Server" (version_string P);
           HeaderField "Date" (date_time_string P None)]
          ++ [HeaderField "Location" (urlunsplit_slash P (path self))]
          ++ [HeaderField "Content-Length" "0"])%list.
  rewrite <- !app_assoc.
  eapply buffered_responded; [exact (send_response_buffered P 301 None self)|].
  repeat (eapply buffered_responded; [apply send_header_buffered|]).
  apply end_headers_responded.
Qed.

Lemma send_head_file_sent fspath self : head_sent self (send_head_file fspath self).
Proof.
  destruct (Str.endswith fspath "/") eqn:E.
  { destruct (send_head_file_not_found fspath self (or_introl E)) as [R S].
    left. eexists _, _, None. unfold error_lines in R. split; [exact R|]. split; [first [exact S | reflexivity]|].
    intros K; now elim K. }
  destruct (open_rb FS fspath) as [f| |] eqn:O.
  - destruct (not_modified f (headers self)) eqn:N.
    + destruct (send_head_file_not_modified fspath f self E O N) as [R S].
      left. eexists _, _, None. unfold not_modified_lines in R. split; [exact R|]. split; [first [exact S | reflexivity]|].
      intros K; now elim K.
    + destruct (send_head_file_ok fspath f self E O N) as [R S].
      left. eexists _, _, (Some (content f)). unfold ok_lines in R.
      split; [exact R|]. split; [first [exact S | reflexivity]|]. reflexivity.
  - destruct (send_head_file_not_found fspath self (or_intror O)) as [R S].
    left. eexists _, _, None. unfold error_lines in R. split; [exact R|]. split; [first [exact S | reflexivity]|].
    intros K; now elim K.
  - right. now apply send_head_file_raises.
Qed.

Lemma send_head_sent self : head_sent self (send_head self).
Proof.
  unfold SimpleHTTPRequestHandler.send_head.
  destruct (isdir FS (translate_path P (path self) self)) eqn:D;
    [|apply send_head_file_sent].
  destruct (Str.endswith (urlsplit_path P (path self)) "/") eqn:U; cbn [negb].
  2:{ destruct (send_head_redirect self D U) as [R S].
      unfold SimpleHTTPRequestHandler.send_head in R, S. rewrite D, U in R, S.
      cbn [negb] in R, S.
      left. eexists _, _, None. unfold redirect_lines in R. split; [exact R|]. split; [first [exact S | reflexivity]|].
      intros K; now elim K. }
  destruct (isfile FS _); [apply send_head_file_sent|].
  destruct (isfile FS _); [apply send_head_file_sent|].
  destruct (listdir FS (translate_path P (path self) self)) as [names|] eqn:L.
  - destruct (list_directory_listed _ names self L) as [R S].
    destruct (list_directory _ self) as [b f]. cbn [fst snd] in *. subst f.
    left. eexists _, _, _. unfold listing_lines in R.
    split; [exact R|]. split; [reflexivity|]. reflexivity.
  - destruct (list_directory_denied _ self L) as [R S].
    destruct (list_directory _ self) as [b f]. cbn [fst snd] in *. subst f.
    left. eexists _, _, None. unfold error_lines in R. split; [exact R|]. split; [first [exact S | reflexivity]|].
    intros K; now elim K.
Qed.

Lemma copyfile_responded l data a b :
  responded l [] a b ->
  responded l (copied data) a (SimpleHTTPRequestHandler.copyfile data b).
Proof.
  intros R. unfold SimpleHTTPRequestHandler.copyfile, copied.
  destruct (Str.is_empty data); [exact R|].
  apply (responded_write _ [] _ _ _ R).
Qed.

Lemma lib_do_GET_answered self :
  answered self (fst (lib_do_GET self))
  /\ (snd (lib_do_GET self) = Return tt \/ snd (lib_do_GET self) = Raise ValueError).
Proof.
  unfold SimpleHTTPRequestHandler.do_GET.
  destruct (send_head_sent self) as [(pre & data & res & R & S & K)|E].
  - destruct (send_head self) as [b r]. cbn [fst snd] in *. subst r.
    destruct res as [f|]; cbn [fst snd].
    + rewrite (K ltac:(discriminate)) in R.
      split; [left; eexists _, _; apply copyfile_responded, R | now left].
    + split; [left; eauto | now left].
  - rewrite E. cbn [fst snd]. split; [now right | now right].
Qed.

Lemma lib_do_HEAD_answered self :
  answered self (fst (lib_do_HEAD self))
  /\ (snd (lib_do_HEAD self) = Return tt \/ snd (lib_do_HEAD self) = Raise ValueError).
Proof.
  unfold SimpleHTTPRequestHandler.do_HEAD.
  destruct (send_head_sent self) as [(pre & data & res & R & S & K)|E].
  - destruct (send_head self) as [b r]. cbn [fst snd] in *. subst r. cbn [fst snd].
    split; [left; eauto | now left].
  - rewrite E. cbn [fst snd]. split; [now right | now right].
Qed.

End Responses.

(** ** One connection *)

Lemma getattr_do env c :
  MissionControlHandler.getattr env ("do_" ++ c)
  = if c =? "GET" then Some (MissionControlHandler.do_GET env)
    else if c =? "HEAD" then
      Some (SimpleHTTPRequestHandler.do_HEAD (platform env) (fs env)
              MissionControlHandler.end_headers)
    else None.
Proof. reflexivity. Qed.

(** The handler object is created for the connection, [parse_request]
    stores the request, and the method is called. *)
Lemma init_eq env r :
  MissionControlHandler.__init__ env [r]
  = let '(self, res) :=
      BaseHTTPRequestHandler.call_method (platform env)
        MissionControlHandler.end_headers (MissionControlHandler.getattr env)
        (dispatched env r) in
    match res with
    | Raise e => (self, Raise e)
    | Return _ =>
        if close_connection self then (self, Return tt)
        else (set_close_connection true self, Return tt)
    end.
Proof. reflexivity. Qed.

Lemma answer_eq env r :
  answer env [r]
  = wfile (fst (BaseHTTPRequestHandler.call_method (platform env)
                  MissionControlHandler.end_headers (MissionControlHandler.getattr env)
                  (dispatched env r))).
Proof.
  unfold answer. rewrite init_eq.
  destruct (BaseHTTPRequestHandler.call_method _ _ _ _) as [b [u|e]];
    [destruct (close_connection b)|]; reflexivity.
Qed.

Lemma raises_eq env r :
  snd (MissionControlHandler.__init__ env [r])
  = match snd (BaseHTTPRequestHandler.call_method (platform env)
                 MissionControlHandler.end_headers (MissionControlHandler.getattr env)
                 (dispatched env r)) with
    | Raise e => Raise e
    | Return _ => Return tt
    end.
Proof.
  rewrite init_eq.
  destruct (BaseHTTPRequestHandler.call_method _ _ _ _) as [b [u|e]];
    [destruct (close_connection b)|]; reflexivity.
Qed.

Lemma do_GET_eq env self :
  MissionControlHandler.do_GET env self
  = SimpleHTTPRequestHandler.do_GET (platform env) (fs env)
      MissionControlHandler.end_headers (set_path (served_path self) self).
Proof.
  unfold MissionControlHandler.do_GET, served_path.
  destruct (path self =? "/") eqn:E; [reflexivity|].
  now destruct self.
Qed.



Lemma head_lines_bodies data : head_lines (map Body data) = [].
Proof. induction data as [|x data IH]; [reflexivity | exact IH]. Qed.

Lemma augmented_head pre data :
  augmented (Head (pre ++ augmentation_lines) :: map Body data).
Proof.
  intros [k v] Hin. unfold response_headers, head_lines. cbn [flat_map].
  fold (head_lines (map Body data)). rewrite head_lines_bodies, app_nil_r.
  apply in_flat_map. exists (HeaderField k v). split; [|now left].
  apply in_or_app. right. unfold augmentation_lines. apply in_or_app. left.
  apply in_map_iff. now exists (k, v).
Qed.

(** ** C1: the four headers *)




(** ** Reading a response *)

Lemma responded_fresh l data a b :
  fresh a -> request_version a <> "HTTP/0.9" -> responded l data a b ->
  wfile b = Head l :: map Body data.
Proof.
  intros [B W] Hv (_ & _ & R). rewrite R, W, B, (not_http09 _ Hv). reflexivity.
Qed.




(** ** Strings *)

Lemma append_assoc (a b c : string) : (a ++ b) ++ c = a ++ (b ++ c).
Proof. induction a as [|x a IH]; [reflexivity|]. cbn. now rewrite IH. Qed.

Lemma rev_append_char (a : string) (c : ascii) :
  Str.rev (a ++ String c EmptyString) = String c (Str.rev a).
Proof. induction a as [|x a IH]; [reflexivity|]. cbn. now rewrite IH. Qed.

Lemma endswith_char (a : string) (c : ascii) :
  c <> "/"%char -> Str.endswith (a ++ String c EmptyString) "/" = false.
Proof.
  intros H. unfold Str.endswith. rewrite rev_append_char.
  change (Str.rev "/") with "/". cbn [String.prefix].
  destruct (ascii_dec "/" c) as [E|E]; [now elim H|reflexivity].
Qed.

Lemma endswith_slash (a : string) : Str.endswith (a ++ "/") "/" = true.
Proof.
  unfold Str.endswith. rewrite rev_append_char.
  change (Str.rev "/") with "/". cbn [String.prefix].
  destruct (ascii_dec "/" "/") as [E|E]; [now destruct (Str.rev a)|now elim E].
Qed.


Section Resolution.

Variable P : Platform.




End Resolution.

(** ** The responses of [MissionControlHandler.do_GET] *)

Section GET.

Variable env : Env.

Abbreviation P := (platform env).
Abbreviation FS := (fs env).

(** The path in the file system that a GET request resolves to. *)
Abbreviation resolved self :=
  (SimpleHTTPRequestHandler.translate_path (platform env) (served_path self) self).


Lemma GET_not_found self :
  command self = "GET" ->
  isdir FS (resolved self) = false ->
  Str.endswith (resolved self) "/" = true \/ open_rb FS (resolved self) = OpenOSError ->
  responded (error_lines P 404 "File not found") [error_body 404 "File not found"]
    (set_path (served_path self) self)
    (fst (MissionControlHandler.do_GET env self))
  /\ snd (MissionControlHandler.do_GET env self) = Return tt.
Proof.
  intros C D H. rewrite do_GET_eq.
  unfold SimpleHTTPRequestHandler.do_GET, SimpleHTTPRequestHandler.send_head.
  set (a := set_path (served_path self) self).
  change (SimpleHTTPRequestHandler.translate_path P (path a) a) with (resolved self).
  rewrite D.
  destruct (send_head_file_not_found P FS (resolved self) a H) as [R S].
  destruct (SimpleHTTPRequestHandler.send_head_file P FS
              MissionControlHandler.end_headers (resolved self) a) as [b r].
  cbn [fst snd] in *. subst r.
  replace (command a) with "GET" in R by (now destruct self). now split.
Qed.

Lemma fresh_set_path p self : fresh self -> fresh (set_path p self).
Proof. now destruct self. Qed.

Lemma version_set_path p self : request_version (set_path p self) = request_version self.
Proof. now destruct self. Qed.

End GET.

(** ** C4: a file is served as it is *)




(** ** C5: a missing file *)




(** ** C2: the root path *)




(** ** C3: containment under the root *)

Lemma split_no_sep c s w : In w (Str.split c s) -> Str.contains c w = false.
Proof.
  revert w. induction s as [|a s IH]; intros w H.
  - destruct H as [<-|[]]. reflexivity.
  - cbn [Str.split] in H. destruct (Ascii.eqb a c) eqn:E.
    + destruct H as [<-|H]; [reflexivity | now apply IH].
    + destruct (Str.split c s) as [|w0 ws].
      * destruct H as [<-|[]]. cbn. now rewrite E.
      * destruct H as [<-|H].
        -- cbn. rewrite E. apply IH. now left.
        -- apply IH. now right.
Qed.

Lemma add_word_contained d p w :
  contained d p -> Str.contains "/" w = false -> Str.is_empty w = false ->
  contained d (SimpleHTTPRequestHandler.add_word p w).
Proof.
  intros C S N. unfold SimpleHTTPRequestHandler.add_word.
  destruct (_ || _ || _)%bool eqn:E; [exact C|].
  apply contained_join; [exact C|].
  apply orb_false_elim in E. destruct E as [E E2].
  apply orb_false_elim in E. destruct E as [_ E1].
  unfold simple_name. now rewrite N, E1, E2, S.
Qed.

Lemma fold_add_word_contained d words p :
  contained d p ->
  (forall w, In w words -> Str.contains "/" w = false /\ Str.is_empty w = false) ->
  contained d (fold_left SimpleHTTPRequestHandler.add_word words p).
Proof.
  revert p. induction words as [|w words IH]; intros p C H; [exact C|].
  cbn [fold_left]. apply IH.
  - destruct (H w (or_introl eq_refl)). now apply add_word_contained.
  - intros w' Hw. apply H. now right.
Qed.

(** Whatever the request path, the path that [translate_path] gives is
    under the handler's directory. *)
Lemma translate_path_contained P path self :
  contained (directory self) (SimpleHTTPRequestHandler.translate_path P path self).
Proof.
  unfold SimpleHTTPRequestHandler.translate_path.
  match goal with
  | |- contained _ (if _ then ?x ++ "/" else ?x) =>
      assert (C : contained (directory self) x)
  end.
  { apply fold_add_word_contained; [apply contained_root|].
    intros w H. apply filter_In in H. destruct H as [H N]. split.
    - exact (split_no_sep _ _ _ H).
    - now destruct (Str.is_empty w). }
  destruct (Str.endswith _ _); [now apply contained_slash | exact C].
Qed.

Lemma insert_sorted_Forall (Q : string -> Prop) x l :
  Q x -> Forall Q l -> Forall Q (SimpleHTTPRequestHandler.insert_sorted x l).
Proof.
  intros Hx. induction 1 as [|y l Hy Hl IH]; cbn [SimpleHTTPRequestHandler.insert_sorted].
  - now constructor.
  - destruct (String.ltb _ _); repeat constructor; assumption.
Qed.

Lemma sort_lower_Forall (Q : string -> Prop) l :
  Forall Q l -> Forall Q (SimpleHTTPRequestHandler.sort_lower l).
Proof.
  unfold SimpleHTTPRequestHandler.sort_lower.
  assert (G : forall acc, Forall Q acc -> Forall Q l ->
                Forall Q (fold_left (fun acc x => SimpleHTTPRequestHandler.insert_sorted x acc) l acc)).
  { induction l as [|x l IH]; intros acc Ha Hl; [exact Ha|].
    cbn [fold_left]. inversion Hl; subst. apply IH; [|assumption].
    now apply insert_sorted_Forall. }
  intros H. apply G; [constructor | exact H].
Qed.

Section Agreement.

Variable P : Platform.
Variables FS1 FS2 : FileSystem.
Variable d : string.
Hypothesis agree : agree_under d FS1 FS2.
Hypothesis names_ok : lists_names FS1.

Lemma list_item_agree dirpath name :
  contained d dirpath -> simple_name name = true ->
  SimpleHTTPRequestHandler.list_item P FS1 dirpath name
  = SimpleHTTPRequestHandler.list_item P FS2 dirpath name.
Proof.
  intros C S. unfold SimpleHTTPRequestHandler.list_item.
  destruct (agree _ (contained_join d dirpath name C S)) as (-> & _ & -> & _).
  reflexivity.
Qed.

Lemma listing_agree dirpath self names :
  contained d dirpath -> forallb simple_name names = true ->
  SimpleHTTPRequestHandler.listing P FS1 dirpath self names
  = SimpleHTTPRequestHandler.listing P FS2 dirpath self names.
Proof.
  intros C S. unfold SimpleHTTPRequestHandler.listing. cbv zeta.
  do 3 f_equal. apply map_ext_in. intros name H. apply list_item_agree; [exact C|].
  assert (F : Forall (fun w => simple_name w = true)
                (SimpleHTTPRequestHandler.sort_lower names)).
  { apply sort_lower_Forall. apply Forall_forall. now apply forallb_forall. }
  rewrite Forall_forall in F. now apply F.
Qed.

Lemma list_directory_agree eh dirpath self :
  contained d dirpath ->
  SimpleHTTPRequestHandler.list_directory P FS1 eh dirpath self
  = SimpleHTTPRequestHandler.list_directory P FS2 eh dirpath self.
Proof.
  intros C. unfold SimpleHTTPRequestHandler.list_directory.
  destruct (agree _ C) as (_ & _ & _ & L & _). rewrite <- L.
  destruct (listdir FS1 dirpath) as [names|] eqn:E; [|reflexivity].
  now rewrite (listing_agree dirpath self names C (names_ok _ _ E)).
Qed.

Lemma send_head_file_agree eh fspath self :
  contained d fspath ->
  SimpleHTTPRequestHandler.send_head_file P FS1 eh fspath self
  = SimpleHTTPRequestHandler.send_head_file P FS2 eh fspath self.
Proof.
  intros C. unfold SimpleHTTPRequestHandler.send_head_file.
  destruct (agree _ C) as (_ & _ & _ & _ & ->). reflexivity.
Qed.

Lemma index_html_simple : simple_name "index.html" = true /\ simple_name "index.htm" = true.
Proof. split; reflexivity. Qed.

Lemma send_head_agree eh self :
  directory self = d ->
  SimpleHTTPRequestHandler.send_head P FS1 eh self
  = SimpleHTTPRequestHandler.send_head P FS2 eh self.
Proof.
  intros D. unfold SimpleHTTPRequestHandler.send_head.
  pose proof (translate_path_contained P (path self) self) as C. rewrite D in C.
  destruct (agree _ C) as (-> & _).
  destruct (agree _ (contained_join d _ "index.html" C (proj1 index_html_simple)))
    as (_ & -> & _).
  destruct (agree _ (contained_join d _ "index.htm" C (proj2 index_html_simple)))
    as (_ & -> & _).
  rewrite (list_directory_agree eh _ self C).
  rewrite !send_head_file_agree;
    [reflexivity | exact C | now apply contained_join | now apply contained_join].
Qed.

End Agreement.

(** C3, as amended.  For every GET request, with or without parent-directory
    segments in its path: the path that the request resolves to is the
    handler's directory joined with simple names (the parent-directory
    segments of [/../secret.txt] are dropped and it resolves to [secret.txt]
    under the directory); the response is the same in every state of the file
    system that differs outside the directory only, so it holds no byte of a
    file outside it; and the status is 404 when the resolved path names no
    directory and nothing that can be opened.  The status is not a client
    error when the path, with its parent-directory segments dropped, names a
    file under the directory. *)
Theorem C3_requests_are_contained_under_the_root (env : Env) (self : Handler) :
  contained (directory self)
    (SimpleHTTPRequestHandler.translate_path (platform env) (served_path self) self)
  /\ SimpleHTTPRequestHandler.translate_path (platform env) "/../secret.txt" self
     = posixpath.join (directory self) "secret.txt"
  /\ (forall env' : Env,
        platform env' = platform env ->
        agree_under (directory self) (fs env) (fs env') ->
        lists_names (fs env) ->
        MissionControlHandler.do_GET env' self = MissionControlHandler.do_GET env self)
  /\ (fresh self ->
      request_version self <> "HTTP/0.9" ->
      command self = "GET" ->
      isdir (fs env)
        (SimpleHTTPRequestHandler.translate_path (platform env) (served_path self) self)
      = false ->
      open_rb (fs env)
        (SimpleHTTPRequestHandler.translate_path (platform env) (served_path self) self)
      = OpenOSError ->
      status (GET_response env self) = Some 404).
Proof.
  split; [apply translate_path_contained|]. split; [reflexivity|]. split.
  - intros env' EP A L. rewrite !do_GET_eq. rewrite EP.
    unfold SimpleHTTPRequestHandler.do_GET.
    rewrite (send_head_agree (platform env) (fs env) (fs env') (directory self) A L
               MissionControlHandler.end_headers (set_path (served_path self) self));
      [reflexivity | now destruct self].
  - intros F V C D O.
    destruct (GET_not_found env self C D (or_intror O)) as [R _].
    unfold GET_response.
    apply responded_fresh in R;
      [|now apply fresh_set_path | now rewrite version_set_path].
    now rewrite R.
Qed.

Lemma lookup_In (A : Type) (k : string) (l : list (string * A)) (v : A) :
  Example.lookup k l = Some v -> In v (map snd l).
Proof.
  unfold Example.lookup. induction l as [|[k' v'] l IH]; cbn [find fst snd map].
  - discriminate.
  - destruct (k' =? k).
    + intros [= <-]. now left.
    + intros H. right. now apply IH.
Qed.

Lemma disk_lists_names : lists_names (fs Example.env).
Proof.
  intros p names H. apply lookup_In in H.
  unfold Example.entries in H. cbn [map snd] in H.
  destruct H as [<-|[<-|[<-|[<-|[<-|[<-|[]]]]]]]; vm_compute; reflexivity.
Qed.

Lemma prefix_refl (d : string) : String.prefix d d = true.
Proof.
  induction d as [|c d IH]; [reflexivity|]. cbn [String.prefix].
  destruct (ascii_dec c c) as [_|N]; [exact IH | now elim N].
Qed.

Lemma prefix_append (d p x : string) :
  String.prefix d p = true -> String.prefix d (p ++ x) = true.
Proof.
  revert p. induction d as [|c d IH]; intros p H; [now destruct (p ++ x)|].
  destruct p as [|c' p]; [discriminate|]. cbn [String.prefix append] in *.
  destruct (ascii_dec c c'); [now apply IH | discriminate].
Qed.

(** A path under [d] starts with [d]. *)
Lemma contained_prefix d p : contained d p -> String.prefix d p = true.
Proof.
  induction 1 as [|p w C IH S|p C IH].
  - apply prefix_refl.
  - unfold posixpath.join.
    assert (N : Str.startswith w "/" = false).
    { unfold simple_name in S. destruct w as [|c w]; [reflexivity|].
      unfold Str.startswith. cbn [String.prefix].
      destruct (ascii_dec "/" c) as [<-|N]; [|reflexivity].
      apply andb_prop in S. destruct S as [_ S].
      cbn [Str.contains] in S. rewrite Ascii.eqb_refl in S. discriminate. }
    rewrite N. destruct (_ || _)%bool; now apply prefix_append.
  - now apply prefix_append.
Qed.

(** The states of the example disk differ outside the root only. *)
Lemma disks_agree_under_root (a b : string) :
  agree_under Example.root (Example.disk_with a) (Example.disk_with b).
Proof.
  intros p C. apply contained_prefix in C.
  assert (L : Example.lookup p (Example.files_with a)
              = Example.lookup p (Example.files_with b)).
  { unfold Example.lookup, Example.files_with. cbn [find fst snd].
    destruct (Example.root ++ "/src/html/index.html" =? p); [reflexivity|].
    destruct (Example.root ++ "/src/server/load.py" =? p); [reflexivity|].
    destruct (Example.root ++ "/secret.txt" =? p); [reflexivity|].
    destruct (String.eqb_spec "/secret.txt" p) as [<-|_]; [|reflexivity].
    vm_compute in C. discriminate. }
  unfold Example.disk_with. cbn [isdir isfile islink listdir open_rb].
  rewrite L. repeat split.
Qed.

Lemma C3_requests_are_contained_under_the_root_witness :
  MissionControlHandler.do_GET (Example.env_with "changed")
    (Example.on_GET "/../secret.txt" "HTTP/1.1" [])
  = MissionControlHandler.do_GET Example.env
      (Example.on_GET "/../secret.txt" "HTTP/1.1" [])
  /\ status (GET_response Example.env (Example.on_GET "/../nope.txt" "HTTP/1.1" []))
     = Some 404.
Proof.
  split.
  - destruct (C3_requests_are_contained_under_the_root Example.env
                (Example.on_GET "/../secret.txt" "HTTP/1.1" [])) as (_ & _ & N & _).
    apply (N (Example.env_with "changed"));
      [reflexivity | apply disks_agree_under_root | apply disk_lists_names].
  - destruct (C3_requests_are_contained_under_the_root Example.env
                (Example.on_GET "/../nope.txt" "HTTP/1.1" [])) as (_ & _ & _ & S).
    apply S; [split; reflexivity | discriminate | reflexivity
              | vm_compute; reflexivity | vm_compute; reflexivity].
Defined.

(** C3, as stated, fails in its second half: the request [/../secret.txt]
    resolves to [secret.txt] under the root, which exists, and is answered
    with status 200 and that file, not with 403 or 404.  The file
    [/secret.txt] outside the root is not what is sent. *)
Lemma C3_parent_segments_can_get_200 :
  SimpleHTTPRequestHandler.translate_path (platform Example.env) "/../secret.txt"
    (Example.on_GET "/../secret.txt" "HTTP/1.1" [])
  = "/srv/mission-control/secret.txt"
  /\ status (GET_response Example.env (Example.on_GET "/../secret.txt" "HTTP/1.1" []))
     = Some 200
  /\ body (GET_response Example.env (Example.on_GET "/../secret.txt" "HTTP/1.1" []))
     = "inside the root".
Proof.
  split; [vm_compute; reflexivity|]. split; vm_compute; reflexivity.
Qed.

(** ** C10: the root path with a query string *)




(** ** C6: OPTIONS *)

(** The response to a request whose method the handler class does not
    define. *)
Lemma unsupported_method_response (env : Env) (r : Request) :
  (req_command r =? "GET") = false ->
  (req_command r =? "HEAD") = false ->
  answer env [r]
  = ((if req_version r =? "HTTP/0.9" then []
      else [Head (error_lines (platform env) 501 (unsupported env r))])
     ++ [Body (error_body 501 (unsupported env r))])%list
  /\ snd (MissionControlHandler.__init__ env [r]) = Return tt.
Proof.
  intros G H. rewrite answer_eq, raises_eq.
  unfold BaseHTTPRequestHandler.call_method.
  change (command (dispatched env r)) with (req_command r).
  rewrite getattr_do, G, H. cbn [fst snd]. split; [|reflexivity].
  pose proof (send_error_responded (platform env) 501 (unsupported env r)
                (dispatched env r) eq_refl) as R.
  destruct R as (_ & _ & W). refine (eq_trans W _).
  change (command (dispatched env r)) with (req_command r). rewrite H.
  reflexivity.
Qed.

(** C6 on the code.  An OPTIONS request, to any path, is answered with
    status 501 and the error page as body: the handler class has no
    [do_OPTIONS].  The four headers are on the response, among them
    [Access-Control-Allow-Methods: GET, OPTIONS]. *)
Theorem C6_options_is_answered_with_501 (env : Env) (r : Request) :
  req_command r = "OPTIONS" ->
  req_version r <> "HTTP/0.9" ->
  status (answer env [r]) = Some 501
  /\ body (answer env [r]) = error_body 501 (unsupported env r)
  /\ body (answer env [r]) <> EmptyString
  /\ augmented (answer env [r]).
Proof.
  intros C V.
  destruct (unsupported_method_response env r) as [W _];
    [now rewrite C | now rewrite C |].
  rewrite W, (not_http09 _ V). unfold error_lines.
  split; [reflexivity|]. split; [reflexivity|]. split.
  - change (body _) with (error_body 501 (unsupported env r)).
    unfold error_body. intros E.
    pose proof (error_message_not_empty 501 (html_escape (unsupported env r))
                  (html_escape "Server does not support this operation")) as N.
    change (snd _) with "Server does not support this operation" in E.
    now rewrite E in N.
  - apply (augmented_head _ [_]).
Qed.

Lemma C6_options_is_answered_with_501_witness :
  status (answer Example.env [Example.OPTIONS "/src/html/index.html" "HTTP/1.1"])
  = Some 501
  /\ body (answer Example.env [Example.OPTIONS "/src/html/index.html" "HTTP/1.1"])
     = error_body 501 "Unsupported method ('OPTIONS')"
  /\ body (answer Example.env [Example.OPTIONS "/src/html/index.html" "HTTP/1.1"])
     <> EmptyString
  /\ augmented (answer Example.env [Example.OPTIONS "/src/html/index.html" "HTTP/1.1"]).
Proof.
  apply (C6_options_is_answered_with_501 Example.env
           (Example.OPTIONS "/src/html/index.html" "HTTP/1.1")).
  - reflexivity.
  - discriminate.
Defined.

(** ** The serving loop *)

Section Loop.

Variable env : Env.

Abbreviation handler := (MissionControlHandler.__init__ env).

(** A method call returns or raises [ValueError], nothing else. *)
Lemma call_method_raises self :
  snd (BaseHTTPRequestHandler.call_method (platform env)
         MissionControlHandler.end_headers (MissionControlHandler.getattr env) self)
  = Return tt
  \/ snd (BaseHTTPRequestHandler.call_method (platform env)
            MissionControlHandler.end_headers (MissionControlHandler.getattr env) self)
     = Raise ValueError.
Proof.
  unfold BaseHTTPRequestHandler.call_method. rewrite getattr_do.
  destruct (command self =? "GET"); [|destruct (command self =? "HEAD")].
  - rewrite do_GET_eq. apply lib_do_GET_answered.
  - apply lib_do_HEAD_answered.
  - now left.
Qed.

Lemma handle_requests_raises rfile self :
  snd (BaseHTTPRequestHandler.handle_requests (platform env)
         MissionControlHandler.end_headers (MissionControlHandler.getattr env)
         rfile self) = Return tt
  \/ snd (BaseHTTPRequestHandler.handle_requests (platform env)
            MissionControlHandler.end_headers (MissionControlHandler.getattr env)
            rfile self) = Raise ValueError.
Proof.
  revert self. induction rfile as [|r rfile IH]; intros self.
  - now left.
  - cbn [BaseHTTPRequestHandler.handle_requests BaseHTTPRequestHandler.handle_one_request].
    destruct (call_method_raises (BaseHTTPRequestHandler.parse_request r self)) as [E|E];
      destruct (BaseHTTPRequestHandler.call_method _ _ _ _) as [b res];
      cbn [snd] in E; subst res.
    + destruct (close_connection b); [now left | apply IH].
    + now right.
Qed.

(** The handler of a connection never raises anything but an [Exception]. *)
Lemma handler_raises rfile :
  snd (handler rfile) = Return tt \/ snd (handler rfile) = Raise ValueError.
Proof. apply handle_requests_raises. Qed.

(** One connection: its answer is sent and the loop goes on. *)
Lemma handle_request_noblock rfile io :
  exists io',
    socketserver._handle_request_noblock handler rfile io = (io', Return tt)
    /\ sent io' = (sent io ++ [answer env rfile])%list
    /\ stdout io' = stdout io /\ listening io' = listening io.
Proof.
  unfold socketserver._handle_request_noblock, answer.
  destruct (handler_raises rfile) as [E|E];
    destruct (handler rfile) as [h res]; cbn [fst snd] in *; subst res.
  - eexists. split; [reflexivity|]. repeat split.
  - cbn [is_Exception]. eexists. split; [reflexivity|]. repeat split.
Qed.

(** While no interrupt comes, the loop answers every connection and waits
    for the next event. *)
Lemma serve_loop_quiet events self io :
  socketserver.shutdown_request_flag self = false -> quiet events = true ->
  exists io',
    socketserver.serve_loop handler events self io = (io', Blocks)
    /\ sent io' = (sent io ++ map (answer env) (connections events))%list
    /\ stdout io' = stdout io /\ listening io' = listening io.
Proof.
  intros F. revert io. induction events as [|ev events IH]; intros io Q.
  - exists io. cbn [socketserver.serve_loop]. rewrite F.
    cbn [connections flat_map map]. rewrite app_nil_r. repeat split.
  - cbn [quiet List.forallb] in Q. apply andb_prop in Q. destruct Q as [Q1 Q2].
    destruct ev as [|rfile|]; [| |discriminate].
    + cbn [socketserver.serve_loop]. rewrite F. apply (IH io Q2).
    + cbn [socketserver.serve_loop]. rewrite F.
      destruct (handle_request_noblock rfile io) as (io1 & -> & S1 & O1 & L1).
      destruct (IH io1 Q2) as (io' & E & S & O & L).
      exists io'. split; [exact E|]. rewrite S, S1, O, O1, L, L1.
      cbn [connections flat_map map app]. rewrite <- app_assoc. repeat split.
Qed.

(** The interrupt ends the loop with [KeyboardInterrupt]. *)
Lemma serve_loop_interrupt pre post self io :
  socketserver.shutdown_request_flag self = false -> quiet pre = true ->
  exists io',
    socketserver.serve_loop handler (pre ++ Interrupt :: post) self io
    = (io', Raises KeyboardInterrupt)
    /\ sent io' = (sent io ++ map (answer env) (connections pre))%list
    /\ stdout io' = stdout io /\ listening io' = listening io.
Proof.
  intros F. revert io. induction pre as [|ev pre IH]; intros io Q.
  - exists io. cbn [socketserver.serve_loop app]. rewrite F.
    cbn [connections flat_map map]. rewrite app_nil_r. repeat split.
  - cbn [quiet List.forallb] in Q. apply andb_prop in Q. destruct Q as [Q1 Q2].
    destruct ev as [|rfile|]; [| |discriminate].
    + cbn [socketserver.serve_loop app]. rewrite F. apply (IH io Q2).
    + cbn [socketserver.serve_loop app]. rewrite F.
      destruct (handle_request_noblock rfile io) as (io1 & -> & S1 & O1 & L1).
      destruct (IH io1 Q2) as (io' & E & S & O & L).
      exists io'. split; [exact E|]. rewrite S, S1, O, O1, L, L1.
      cbn [connections flat_map map app]. rewrite <- app_assoc. repeat split.
Qed.

(** The program while it serves. *)
Lemma python_serving events :
  chdir env (DIRECTORY env) = Return tt ->
  server_bind env PORT = Return tt ->
  quiet events = true ->
  exists io,
    python env events = (io, None)
    /\ sent io = map (answer env) (connections events)
    /\ stdout io = banner env /\ listening io = true.
Proof.
  intros C B Q. unfold python, main. rewrite C, B.
  cbn [socketserver.__init__]. unfold socketserver.serve_forever.
  cbn [socketserver.shutdown_request_flag].
  match goal with
  | |- context [socketserver.serve_loop _ _ ?s ?i] =>
      destruct (serve_loop_quiet events s i eq_refl Q) as (io' & -> & S & O & L)
  end.
  exists io'. split; [reflexivity|]. rewrite S, O, L. repeat split.
Qed.

(** The program when the interrupt comes. *)
Lemma python_interrupted pre post :
  chdir env (DIRECTORY env) = Return tt ->
  server_bind env PORT = Return tt ->
  quiet pre = true ->
  exists io,
    python env (pre ++ Interrupt :: post) = (io, Some 0%Z)
    /\ sent io = map (answer env) (connections pre)
    /\ stdout io = (banner env ++ [shutdown_message])%list
    /\ listening io = false.
Proof.
  intros C B Q. unfold python, main. rewrite C, B.
  cbn [socketserver.__init__]. unfold socketserver.serve_forever.
  cbn [socketserver.shutdown_request_flag].
  match goal with
  | |- context [socketserver.serve_loop _ _ ?s ?i] =>
      destruct (serve_loop_interrupt pre post s i eq_refl Q) as (io' & -> & S & O & L)
  end.
  cbn [socketserver.shutdown socketserver.is_shut_down].
  eexists. split; [reflexivity|].
  cbn [socketserver.server_close set_listening print sent stdout listening].
  rewrite S, O. repeat split.
Qed.

End Loop.

(** ** C7: errors of one request *)



(** ** C8: the port is taken *)

(** C8.  When binding the listening socket raises [OSError], the process
    exits with status 1 after the traceback of the exception is printed on
    standard error; nothing else was printed, no connection was answered,
    and the socket is closed: the loop was not entered and binding is not
    tried again. *)
Theorem C8_bind_failure_is_fatal (env : Env) (events : list event) :
  chdir env (DIRECTORY env) = Return tt ->
  server_bind env PORT = Raise OSError ->
  python env events
  = ({| stdout := [];
        stderr := ["Traceback (most recent call last):"; "OSError"];
        sent := [];
        listening := false |}, Some 1%Z).
Proof.
  intros C B. unfold python, main. rewrite C, B. reflexivity.
Qed.

Lemma C8_bind_failure_is_fatal_witness :
  python Example.env_port_in_use Example.traffic
  = ({| stdout := [];
        stderr := ["Traceback (most recent call last):"; "OSError"];
        sent := [];
        listening := false |}, Some 1%Z).
Proof.
  apply (C8_bind_failure_is_fatal Example.env_port_in_use Example.traffic);
    reflexivity.
Defined.

(** ** C9: the interrupt *)

(** C9.  When the interrupt comes while the server serves, the process
    prints the shutdown message after its banner, closes the listening
    socket, which was open until then, and exits with status 0; the
    connections that came before were answered, and no event after the
    interrupt is looked at. *)
Theorem C9_interrupt_shuts_the_server_down
    (env : Env) (pre post : list event) :
  chdir env (DIRECTORY env) = Return tt ->
  server_bind env PORT = Return tt ->
  quiet pre = true ->
  snd (python env (pre ++ Interrupt :: post)) = Some 0%Z
  /\ stdout (fst (python env (pre ++ Interrupt :: post)))
     = (banner env ++ [shutdown_message])%list
  /\ listening (fst (python env pre)) = true
  /\ listening (fst (python env (pre ++ Interrupt :: post))) = false
  /\ sent (fst (python env (pre ++ Interrupt :: post)))
     = map (answer env) (connections pre).
Proof.
  intros C B Q.
  destruct (python_interrupted env pre post C B Q) as (io & -> & S & O & L).
  destruct (python_serving env pre C B Q) as (io0 & -> & _ & _ & L0).
  cbn [fst snd]. repeat split; assumption.
Qed.

Lemma C9_interrupt_shuts_the_server_down_witness :
  snd (python Example.env (Example.traffic ++ Interrupt :: Example.traffic)) = Some 0%Z
  /\ stdout (fst (python Example.env (Example.traffic ++ Interrupt :: Example.traffic)))
     = (banner Example.env ++ [shutdown_message])%list
  /\ listening (fst (python Example.env Example.traffic)) = true
  /\ listening (fst (python Example.env (Example.traffic ++ Interrupt :: Example.traffic)))
     = false
  /\ sent (fst (python Example.env (Example.traffic ++ Interrupt :: Example.traffic)))
     = map (answer Example.env) (connections Example.traffic).
Proof.
  apply (C9_interrupt_shuts_the_server_down Example.env Example.traffic Example.traffic);
    reflexivity.
Defined.

(** * Further properties *)

(** ** The kinds of response *)

Lemma copied_error_body code message :
  copied (error_body code message) = [error_body code message].
Proof.
  unfold copied, error_body. now rewrite error_message_not_empty.
Qed.

Lemma body_chunks_error c code message :
  body_chunks c (error_body code message)
  = if c =? "HEAD" then [] else [error_body code message].
Proof. unfold body_chunks. now rewrite copied_error_body. Qed.

Lemma body_chunks_empty c : body_chunks c EmptyString = [].
Proof. unfold body_chunks. now destruct (c =? "HEAD"). Qed.

Section Kinds.

Variable P : Platform.
Variable FS : FileSystem.
Variable method : string.

Lemma send_head_file_done fspath self :
  head_done P method self
    (SimpleHTTPRequestHandler.send_head_file P FS MissionControlHandler.end_headers
       fspath self).
Proof.
  destruct (Str.endswith fspath "/") eqn:E.
  { destruct (send_head_file_not_found P FS fspath self (or_introl E)) as [R S].
    left. eexists _, _. split; [apply reply_not_found|]. left.
    rewrite body_chunks_error. split; [exact R | exact S]. }
  destruct (open_rb FS fspath) as [f| |] eqn:O.
  - destruct (SimpleHTTPRequestHandler.not_modified P f (headers self)) eqn:N.
    + destruct (send_head_file_not_modified P FS fspath f self E O N) as [R S].
      left. eexists _, _. split; [apply reply_not_modified|]. left.
      rewrite body_chunks_empty. split; [exact R | exact S].
    + destruct (send_head_file_ok P FS fspath f self E O N) as [R S].
      left. eexists _, _.
      split; [apply (reply_file P method (SimpleHTTPRequestHandler.guess_type P fspath) f)|].
      right.
      split; [exact R | exact S].
  - destruct (send_head_file_not_found P FS fspath self (or_intror O)) as [R S].
    left. eexists _, _. split; [apply reply_not_found|]. left.
    rewrite body_chunks_error. split; [exact R | exact S].
  - right. now apply send_head_file_raises.
Qed.

Lemma send_head_done self :
  head_done P method self
    (SimpleHTTPRequestHandler.send_head P FS MissionControlHandler.end_headers self).
Proof.
  destruct (isdir FS (SimpleHTTPRequestHandler.translate_path P (path self) self)) eqn:D.
  2:{ unfold SimpleHTTPRequestHandler.send_head. rewrite D. apply send_head_file_done. }
  destruct (Str.endswith (urlsplit_path P (path self)) "/") eqn:U.
  2:{ destruct (send_head_redirect P FS self D U) as [R S].
      left. eexists _, _. split; [apply (reply_redirect P method (path self))|]. left.
      rewrite body_chunks_empty. split; [exact R | exact S]. }
  unfold SimpleHTTPRequestHandler.send_head. rewrite D, U. cbn [negb].
  destruct (isfile FS _); [apply send_head_file_done|].
  destruct (isfile FS _); [apply send_head_file_done|].
  destruct (listdir FS (SimpleHTTPRequestHandler.translate_path P (path self) self))
    as [names|] eqn:L.
  - destruct (list_directory_listed P FS _ names self L) as [R S].
    destruct (SimpleHTTPRequestHandler.list_directory _ _ _ _ self) as [b f].
    cbn [fst snd] in *. subst f.
    left. eexists _, _. split; [apply reply_listing|]. right.
    split; [exact R | reflexivity].
  - destruct (list_directory_denied P FS _ self L) as [R S].
    destruct (SimpleHTTPRequestHandler.list_directory _ _ _ _ self) as [b f].
    cbn [fst snd] in *. subst f.
    left. eexists _, _. split; [apply reply_no_permission|]. left.
    rewrite body_chunks_error. split; [exact R | reflexivity].
Qed.

End Kinds.

(** Every connection with one request gets a response of one of the kinds,
    or nothing at all when the handler raised [ValueError]. *)
Lemma answer_kinds (env : Env) (r : Request) :
  (exists front content, reply_of env r front content)
  \/ (answer env [r] = []
      /\ snd (MissionControlHandler.__init__ env [r]) = Raise ValueError).
Proof.
  unfold reply_of. rewrite answer_eq, raises_eq.
  unfold BaseHTTPRequestHandler.call_method.
  change (command (dispatched env r)) with (req_command r).
  rewrite getattr_do.
  destruct (req_command r =? "GET") eqn:G; [|destruct (req_command r =? "HEAD") eqn:Hd].
  - apply String.eqb_eq in G. rewrite do_GET_eq.
    unfold SimpleHTTPRequestHandler.do_GET.
    set (a := set_path (served_path (dispatched env r)) (dispatched env r)).
    assert (F : fresh a) by (split; reflexivity).
    assert (C : command a = req_command r) by reflexivity.
    destruct (send_head_done (platform env) (fs env) (unsupported env r) a)
      as [(front & content & K & [[R S]|[R S]])|E].
    + destruct (SimpleHTTPRequestHandler.send_head _ _ _ a) as [b res].
      cbn [fst snd] in *. subst res. cbn [fst snd].
      left. exists front, content. split; [exact K|]. split; [|reflexivity].
      destruct R as (_ & _ & W). rewrite W, C. reflexivity.
    + destruct (SimpleHTTPRequestHandler.send_head _ _ _ a) as [b res].
      cbn [fst snd] in *. subst res. cbn [fst snd].
      left. exists front, content. split; [exact K|]. split; [|reflexivity].
      apply (copyfile_responded _ content) in R. destruct R as (_ & _ & W).
      rewrite W. unfold body_chunks. rewrite G. reflexivity.
    + rewrite E. cbn [fst snd]. right. split; reflexivity.
  - unfold SimpleHTTPRequestHandler.do_HEAD.
    set (a := dispatched env r).
    assert (C : command a = req_command r) by reflexivity.
    destruct (send_head_done (platform env) (fs env) (unsupported env r) a)
      as [(front & content & K & [[R S]|[R S]])|E].
    + destruct (SimpleHTTPRequestHandler.send_head _ _ _ a) as [b res].
      cbn [fst snd] in *. subst res. cbn [fst snd].
      left. exists front, content. split; [exact K|]. split; [|reflexivity].
      destruct R as (_ & _ & W). rewrite W, C. reflexivity.
    + destruct (SimpleHTTPRequestHandler.send_head _ _ _ a) as [b res].
      cbn [fst snd] in *. subst res. cbn [fst snd].
      left. exists front, content. split; [exact K|]. split; [|reflexivity].
      destruct R as (_ & _ & W). rewrite W. unfold body_chunks. rewrite Hd.
      reflexivity.
    + rewrite E. cbn [fst snd]. right. split; reflexivity.
  - cbn [fst snd]. left. exists (error_front (platform env) 501 (unsupported env r)),
      (error_body 501 (unsupported env r)).
    split; [apply reply_unsupported|]. split; [|reflexivity].
    pose proof (send_error_responded (platform env) 501 (unsupported env r)
                  (dispatched env r) eq_refl) as R.
    destruct R as (_ & _ & W). refine (eq_trans W _).
    change (command (dispatched env r)) with (req_command r).
    rewrite body_chunks_error. reflexivity.
Qed.



Lemma body_bodies data : body (map Body data) = String.concat EmptyString data.
Proof.
  unfold body. f_equal.
  induction data as [|x data IH]; [reflexivity|]. cbn [map flat_map app].
  now rewrite IH.
Qed.

(** The status line comes first in every kind of response, with one of the
    five status codes. *)
Lemma reply_kind_status P method front content :
  reply_kind P method front content ->
  exists code message rest,
    front = StatusLine "HTTP/1.0" code message :: rest
    /\ known_status code = true.
Proof.
  intros K. destruct K; eexists _, _, _; (split; [reflexivity|]); reflexivity.
Qed.



(** What a response of a known kind looks like for a request with a
    version. *)
Lemma reply_of_answer env r front content :
  req_version r <> "HTTP/0.9" ->
  reply_of env r front content ->
  answer env [r]
  = Head (front ++ augmentation_lines) :: map Body (body_chunks (req_command r) content).
Proof.
  intros V (_ & W & _). now rewrite W, (not_http09 _ V).
Qed.

(** X1.  The status of a response is 200, 301, 304, 404 or 501, whatever the
    request: the handler never answers with 403 or with a 5xx code other
    than 501. *)
Theorem every_status_is_200_301_304_404_or_501 (env : Env) (r : Request) :
  req_version r <> "HTTP/0.9" ->
  answer env [r] <> [] ->
  exists code : nat,
    status (answer env [r]) = Some code /\ known_status code = true.
Proof.
  intros V N. destruct (answer_kinds env r) as [(front & content & K)|[E _]].
  - rewrite (reply_of_answer env r front content V K).
    destruct K as (K & _).
    destruct (reply_kind_status _ _ _ _ K) as (code & message & rest & -> & S).
    exists code. split; [reflexivity | exact S].
  - now elim N.
Qed.

Lemma every_status_is_200_301_304_404_or_501_witness :
  exists code : nat,
    status (answer Example.env [Example.GET "/../../etc/passwd" "HTTP/1.1" []])
    = Some code
    /\ known_status code = true.
Proof.
  apply (every_status_is_200_301_304_404_or_501 Example.env
           (Example.GET "/../../etc/passwd" "HTTP/1.1" []));
    [discriminate | vm_compute; discriminate].
Defined.







(** X5.  A GET request for [/] is answered with exactly the bytes of a GET
    request for [/src/html/index.html] with the same version and headers. *)
Theorem get_root_is_get_index_document
    (env : Env) (version : string) (hs : list (string * string)) :
  answer env [ {| req_command := "GET"; req_path := "/";
                  req_version := version; req_headers := hs |} ]
  = answer env [ {| req_command := "GET"; req_path := "/src/html/index.html";
                    req_version := version; req_headers := hs |} ].
Proof.
  rewrite !answer_eq. unfold BaseHTTPRequestHandler.call_method.
  cbn [command dispatched req_command]. rewrite !getattr_do.
  cbn [String.eqb Ascii.eqb Bool.eqb]. rewrite !do_GET_eq. reflexivity.
Qed.

(** X6.  Only [do_GET] is overridden: a HEAD request for [/] is not
    rewritten.  It is handled by the inherited [do_HEAD] as it is and
    resolves to the root directory itself; when that directory has no
    [index.html] and no [index.htm], the response is the header block of
    its listing, with no body, not that of the index document. *)
Theorem head_request_for_root_is_not_rewritten
    (env : Env) (r : Request) (names : list string) :
  req_command r = "HEAD" ->
  req_path r = "/" ->
  answer env [r]
  = wfile (fst (SimpleHTTPRequestHandler.do_HEAD (platform env) (fs env)
                  MissionControlHandler.end_headers (dispatched env r)))
  /\ SimpleHTTPRequestHandler.translate_path (platform env) (req_path r)
       (dispatched env r)
     = DIRECTORY env ++ "/"
  /\ (req_version r <> "HTTP/0.9" ->
      isdir (fs env) (DIRECTORY env ++ "/") = true ->
      Str.endswith (urlsplit_path (platform env) "/") "/" = true ->
      isfile (fs env) (posixpath.join (DIRECTORY env ++ "/") "index.html") = false ->
      isfile (fs env) (posixpath.join (DIRECTORY env ++ "/") "index.htm") = false ->
      listdir (fs env) (DIRECTORY env ++ "/") = Some names ->
      answer env [r]
      = [Head (listing_lines (platform env)
                 (SimpleHTTPRequestHandler.listing (platform env) (fs env)
                    (DIRECTORY env ++ "/") (dispatched env r) names))]).
Proof.
  intros C E.
  assert (A : answer env [r]
              = wfile (fst (SimpleHTTPRequestHandler.do_HEAD (platform env) (fs env)
                              MissionControlHandler.end_headers (dispatched env r)))).
  { rewrite answer_eq. unfold BaseHTTPRequestHandler.call_method.
    change (command (dispatched env r)) with (req_command r).
    rewrite getattr_do, C. reflexivity. }
  assert (T : SimpleHTTPRequestHandler.translate_path (platform env) (req_path r)
                (dispatched env r) = DIRECTORY env ++ "/") by (now rewrite E).
  split; [exact A|]. split; [exact T|].
  intros V D U I1 I2 L. rewrite A.
  unfold SimpleHTTPRequestHandler.do_HEAD, SimpleHTTPRequestHandler.send_head.
  change (path (dispatched env r)) with (req_path r). rewrite T, E, D, U, I1, I2.
  cbn [negb].
  destruct (list_directory_listed (platform env) (fs env) _ names (dispatched env r) L)
    as [R S].
  destruct (SimpleHTTPRequestHandler.list_directory _ _ _ _ (dispatched env r)) as [b f].
  cbn [fst snd] in *.
  apply responded_fresh in R; [exact R | split; reflexivity | exact V].
Qed.

Lemma head_request_for_root_is_not_rewritten_witness :
  status (answer Example.env [Example.HEAD "/" "HTTP/1.1"]) = Some 200
  /\ In ("Content-type", "text/html; charset=utf-8")
        (response_headers (answer Example.env [Example.HEAD "/" "HTTP/1.1"]))
  /\ answer Example.env [Example.HEAD "/" "HTTP/1.1"]
     = [Head (listing_lines (platform Example.env)
                (SimpleHTTPRequestHandler.listing (platform Example.env)
                   (fs Example.env) "/srv/mission-control/"
                   (dispatched Example.env (Example.HEAD "/" "HTTP/1.1"))
                   ["src"; "secret.txt"]))].
Proof.
  destruct (head_request_for_root_is_not_rewritten Example.env
              (Example.HEAD "/" "HTTP/1.1") ["src"; "secret.txt"] eq_refl eq_refl)
    as (_ & _ & L).
  split; [vm_compute; reflexivity|]. split; [vm_compute; tauto|].
  apply L; [discriminate | vm_compute; reflexivity | vm_compute; reflexivity
            | vm_compute; reflexivity | vm_compute; reflexivity
            | vm_compute; reflexivity].
Defined.

(** ** [end_headers] *)

(** X7.  [end_headers] keeps what the headers buffer holds, in order, adds
    the four headers and the blank line after it, writes the block with one
    write and leaves the buffer empty; a header of the same name that was
    buffered before is kept, not replaced.  It changes nothing of the
    request.  For an HTTP/0.9 request it writes nothing. *)
Theorem end_headers_appends_to_the_buffer_and_flushes (self : Handler) :
  unchanged self (MissionControlHandler.end_headers self)
  /\ (request_version self <> "HTTP/0.9" ->
      wfile (MissionControlHandler.end_headers self)
      = (wfile self ++ [Head (_headers_buffer self ++ augmentation_lines)])%list
      /\ _headers_buffer (MissionControlHandler.end_headers self) = [])
  /\ (request_version self = "HTTP/0.9" ->
      wfile (MissionControlHandler.end_headers self) = wfile self
      /\ _headers_buffer (MissionControlHandler.end_headers self)
         = _headers_buffer self).
Proof.
  destruct (end_headers_responded self) as (U & B & W).
  split; [exact U|]. split.
  - intros V. rewrite (not_http09 _ V) in *. cbn [map] in W.
    rewrite app_nil_r in W. split; [exact W | exact B].
  - intros V. rewrite V in *. cbn [String.eqb Ascii.eqb Bool.eqb map app] in *.
    rewrite app_nil_r in W. split; [exact W | exact B].
Qed.

Lemma end_headers_appends_to_the_buffer_and_flushes_witness :
  response_headers (wfile (MissionControlHandler.end_headers (Example.buffering "HTTP/1.1")))
  = (("Cache-Control", "max-age=60") :: augmentation_headers)
  /\ wfile (MissionControlHandler.end_headers (Example.buffering "HTTP/0.9")) = [].
Proof.
  destruct (end_headers_appends_to_the_buffer_and_flushes (Example.buffering "HTTP/1.1"))
    as (_ & A & _).
  destruct (end_headers_appends_to_the_buffer_and_flushes (Example.buffering "HTTP/0.9"))
    as (_ & _ & B).
  split.
  - destruct A as [-> _]; [discriminate | reflexivity].
  - destruct B as [-> _]; reflexivity.
Defined.

(** ** [main] *)

(** X8.  While the server serves, what the process has printed on standard
    output is the banner of four lines, whatever the connections: the
    directory and the port are named once, and no request prints there. *)
Theorem banner_is_all_that_is_printed (env : Env) (events : list event) :
  chdir env (DIRECTORY env) = Return tt ->
  server_bind env PORT = Return tt ->
  quiet events = true ->
  stdout (fst (python env events))
  = [ "Mission Control Server Starting...";
      "Serving from: " ++ DIRECTORY env;
      "Server running at: http://localhost:8000";
      "Press Ctrl+C to stop the server" ].
Proof.
  intros C B Q. destruct (python_serving env events C B Q) as (io & -> & _ & O & _).
  exact O.
Qed.

Lemma banner_is_all_that_is_printed_witness :
  stdout (fst (python Example.env Example.traffic))
  = [ "Mission Control Server Starting...";
      "Serving from: /srv/mission-control";
      "Server running at: http://localhost:8000";
      "Press Ctrl+C to stop the server" ].
Proof.
  apply (banner_is_all_that_is_printed Example.env Example.traffic); reflexivity.
Defined.

(** X9.  When [os.chdir(DIRECTORY)] raises [OSError], the process exits
    with status 1 after the traceback is printed; no socket was created,
    nothing else was printed and no connection was answered. *)
Theorem chdir_failure_is_fatal (env : Env) (events : list event) :
  chdir env (DIRECTORY env) = Raise OSError ->
  python env events
  = ({| stdout := [];
        stderr := ["Traceback (most recent call last):"; "OSError"];
        sent := [];
        listening := false |}, Some 1%Z).
Proof. intros C. unfold python, main. rewrite C. reflexivity. Qed.

Lemma chdir_failure_is_fatal_witness :
  python Example.env_no_root Example.traffic
  = ({| stdout := [];
        stderr := ["Traceback (most recent call last):"; "OSError"];
        sent := [];
        listening := false |}, Some 1%Z).
Proof.
  apply (chdir_failure_is_fatal Example.env_no_root Example.traffic). reflexivity.
Defined.

(** ** The connection is closed after one request *)

Lemma send_header_keeps_closed keyword value a :
  close_connection a = true ->
  (Str.lower keyword =? "connection") = false \/ (Str.lower value =? "close") = true ->
  close_connection (BaseHTTPRequestHandler.send_header keyword value a) = true.
Proof.
  intros C H. unfold BaseHTTPRequestHandler.send_header, set_headers_buffer,
    set_close_connection.
  destruct a as [d c p v hs buf w cc].
  cbn [directory command path request_version headers _headers_buffer wfile
       close_connection] in *.
  destruct (negb (v =? "HTTP/0.9"));
    cbn [directory command path request_version headers _headers_buffer wfile
         close_connection];
    (destruct H as [-> | ->]; [exact C|]);
    (destruct (Str.lower keyword =? "connection"); [reflexivity | exact C]).
Qed.

Lemma send_response_only_keeps_closed code message a :
  close_connection a = true ->
  close_connection (BaseHTTPRequestHandler.send_response_only code message a) = true.
Proof.
  intros C. unfold BaseHTTPRequestHandler.send_response_only, set_headers_buffer.
  destruct a as [d c p v hs buf w cc]. cbn in *.
  now destruct (negb (v =? "HTTP/0.9")).
Qed.

Lemma send_response_keeps_closed P code message a :
  close_connection a = true ->
  close_connection (BaseHTTPRequestHandler.send_response P code message a) = true.
Proof.
  intros C. unfold BaseHTTPRequestHandler.send_response.
  apply send_header_keeps_closed; [|left; vm_compute; reflexivity].
  apply send_header_keeps_closed; [|left; vm_compute; reflexivity].
  now apply send_response_only_keeps_closed.
Qed.

Ltac keeps_closed :=
  repeat (apply send_header_keeps_closed;
          [|first [left; vm_compute; reflexivity
                  | right; vm_compute; reflexivity]]);
  first [ now apply send_response_only_keeps_closed
        | now apply send_response_keeps_closed
        | assumption ].

Lemma end_headers_keeps_closed a :
  close_connection a = true ->
  close_connection (MissionControlHandler.end_headers a) = true.
Proof.
  intros C. unfold MissionControlHandler.end_headers.
  assert (E : forall b, close_connection b = true ->
                close_connection (BaseHTTPRequestHandler.end_headers b) = true).
  { intros b Cb. unfold BaseHTTPRequestHandler.end_headers,
      BaseHTTPRequestHandler.flush_headers, write, set_headers_buffer.
    destruct b as [d c p v hs buf w cc]. cbn in *.
    now destruct (negb (v =? "HTTP/0.9")). }
  apply E.
  repeat (apply send_header_keeps_closed; [|left; vm_compute; reflexivity]).
  exact C.
Qed.

Lemma write_keeps_closed x a :
  close_connection a = true -> close_connection (write x a) = true.
Proof. now destruct a. Qed.

Lemma send_error_keeps_closed P code message a :
  close_connection a = true ->
  close_connection
    (BaseHTTPRequestHandler.send_error P MissionControlHandler.end_headers code message a)
  = true.
Proof.
  intros C. unfold BaseHTTPRequestHandler.send_error.
  destruct (BaseHTTPRequestHandler.responses code) as [[short long]|]; cbv zeta.
  all: match goal with
       | |- close_connection (if ?c then _ else _) = true => destruct c
       end.
  all: try apply write_keeps_closed.
  all: apply end_headers_keeps_closed.
  all: match goal with
       | |- close_connection (if ?c then _ else _) = true => destruct c
       end.
  all: keeps_closed.
Qed.

Section Closed.

Variable P : Platform.
Variable FS : FileSystem.

Lemma send_head_keeps_closed a :
  close_connection a = true ->
  close_connection
    (fst (SimpleHTTPRequestHandler.send_head P FS MissionControlHandler.end_headers a))
  = true.
Proof.
  intros C.
  assert (F : forall fspath,
             close_connection
               (fst (SimpleHTTPRequestHandler.send_head_file P FS
                       MissionControlHandler.end_headers fspath a)) = true).
  { intros fspath. unfold SimpleHTTPRequestHandler.send_head_file,
      SimpleHTTPRequestHandler.send_error, SimpleHTTPRequestHandler.send_response,
      SimpleHTTPRequestHandler.send_header.
    destruct (Str.endswith fspath "/"); [now apply send_error_keeps_closed|].
    destruct (open_rb FS fspath) as [f| |];
      [|now apply send_error_keeps_closed|exact C].
    destruct (SimpleHTTPRequestHandler.not_modified P f (headers a)); cbn [fst].
    - apply end_headers_keeps_closed. keeps_closed.
    - apply end_headers_keeps_closed. keeps_closed. }
  unfold SimpleHTTPRequestHandler.send_head.
  destruct (isdir FS _); [|apply F].
  destruct (negb _); cbn [fst].
  - apply end_headers_keeps_closed.
    unfold SimpleHTTPRequestHandler.send_header, SimpleHTTPRequestHandler.send_response.
    keeps_closed.
  - destruct (isfile FS _); [apply F|]. destruct (isfile FS _); [apply F|].
    unfold SimpleHTTPRequestHandler.list_directory,
      SimpleHTTPRequestHandler.send_error, SimpleHTTPRequestHandler.send_response,
      SimpleHTTPRequestHandler.send_header.
    destruct (listdir FS _); cbn [fst].
    + apply end_headers_keeps_closed. keeps_closed.
    + now apply send_error_keeps_closed.
Qed.

End Closed.

Lemma call_method_keeps_closed env a :
  close_connection a = true ->
  close_connection
    (fst (BaseHTTPRequestHandler.call_method (platform env)
            MissionControlHandler.end_headers (MissionControlHandler.getattr env) a))
  = true.
Proof.
  intros C. unfold BaseHTTPRequestHandler.call_method. rewrite getattr_do.
  destruct (command a =? "GET"); [|destruct (command a =? "HEAD")].
  - rewrite do_GET_eq. unfold SimpleHTTPRequestHandler.do_GET.
    pose proof (send_head_keeps_closed (platform env) (fs env)
                  (set_path (served_path a) a)) as K.
    destruct (SimpleHTTPRequestHandler.send_head _ _ _ _) as [b [[f|]|e]];
      cbn [fst] in *; try (apply K; now destruct a).
    unfold SimpleHTTPRequestHandler.copyfile.
    destruct (Str.is_empty f); [|apply write_keeps_closed];
      apply K; now destruct a.
  - unfold SimpleHTTPRequestHandler.do_HEAD.
    pose proof (send_head_keeps_closed (platform env) (fs env) a C) as K.
    destruct (SimpleHTTPRequestHandler.send_head _ _ _ _) as [b [f|e]];
      cbn [fst] in *; exact K.
  - cbn [fst]. now apply send_error_keeps_closed.
Qed.

(** X10.  The handler answers the first request of a connection and no
    other: whatever the client sends after it on the same connection is
    never handled (the handler speaks HTTP/1.0 and closes the connection
    after one request, whatever its [Connection] header). *)
Theorem only_the_first_request_of_a_connection_is_handled
    (env : Env) (r : Request) (rest : list Request) :
  MissionControlHandler.__init__ env (r :: rest)
  = MissionControlHandler.__init__ env [r].
Proof.
  unfold MissionControlHandler.__init__, BaseHTTPRequestHandler.handle.
  cbn [BaseHTTPRequestHandler.handle_requests
       BaseHTTPRequestHandler.handle_one_request].
  match goal with
  | |- context [BaseHTTPRequestHandler.call_method _ _ _ ?a] =>
      pose proof (call_method_keeps_closed env a eq_refl) as K;
      destruct (BaseHTTPRequestHandler.call_method (platform env)
                  MissionControlHandler.end_headers
                  (MissionControlHandler.getattr env) a) as [b [u|e]]
  end; [|reflexivity].
  cbn [fst] in K. rewrite K. reflexivity.
Qed.

(** ** A request that gets no response *)

Section Raised.

Variable P : Platform.
Variable FS : FileSystem.
Variable self_end_headers : Handler -> Handler.



End Raised.




(** ** [DIRECTORY] *)

Lemma length_append (s t : string) :
  String.length (s ++ t) = String.length s + String.length t.
Proof. induction s as [|a s IH]; [reflexivity|]. cbn. now rewrite IH. Qed.

Lemma substring_prefix (s t : string) : substring 0 (String.length s) (s ++ t) = s.
Proof.
  induction s as [|a s IH]; [now destruct t|].
  cbn [String.length append substring]. now rewrite IH.
Qed.

Lemma rfind_from_append c s t i last :
  Str.rfind_from c (s ++ t) i last
  = Str.rfind_from c t (i + Z.of_nat (String.length s))%Z (Str.rfind_from c s i last).
Proof.
  revert i last. induction s as [|a s IH]; intros i last.
  - cbn [append String.length Str.rfind_from]. now rewrite Z.add_0_r.
  - cbn [append String.length Str.rfind_from]. rewrite IH. f_equal.
    rewrite Nat2Z.inj_succ. lia.
Qed.

Lemma rfind_from_absent c t i last :
  Str.contains c t = false -> Str.rfind_from c t i last = last.
Proof.
  revert i last. induction t as [|a t IH]; intros i last H; [reflexivity|].
  cbn [Str.contains Str.rfind_from] in *. apply orb_false_elim in H.
  destruct H as [H1 H2]. rewrite H1. now apply IH.
Qed.

Lemma forallb_append_false p s x t :
  p x = false -> Str.forallb p (s ++ String x t) = false.
Proof.
  intros H. induction s as [|a s IH]; cbn [append Str.forallb].
  - now rewrite H.
  - rewrite IH. apply andb_false_r.
Qed.

Lemma rstrip_if_append p s t :
  Str.is_empty (Str.rstrip_if p t) = false ->
  Str.rstrip_if p (s ++ t) = s ++ Str.rstrip_if p t.
Proof.
  intros H. induction s as [|a s IH]; [reflexivity|].
  cbn [append Str.rstrip_if]. rewrite IH.
  replace (Str.is_empty (s ++ Str.rstrip_if p t)) with false.
  - now rewrite andb_false_r.
  - destruct s; cbn [append Str.is_empty]; [now rewrite H | reflexivity].
Qed.

(** A string that is not empty has a last character. *)
Lemma last_char (s : string) :
  Str.is_empty s = false -> exists s0 y, s = s0 ++ String y EmptyString.
Proof.
  induction s as [|a s IH]; [discriminate|]. intros _.
  destruct s as [|b s].
  - now exists EmptyString, a.
  - destruct (IH eq_refl) as (s0 & y & E). exists (String a s0), y.
    cbn [append]. now rewrite <- E.
Qed.

Lemma contains_append c s t :
  Str.contains c (s ++ t) = Str.contains c s || Str.contains c t.
Proof.
  induction s as [|a s IH]; [reflexivity|].
  cbn [append Str.contains]. rewrite IH. apply orb_assoc.
Qed.

(** [dirname] of a directory joined with a name is the directory. *)
Lemma dirname_join (d name : string) :
  Str.is_empty d = false -> Str.endswith d "/" = false ->
  Str.contains "/" name = false ->
  posixpath.dirname (d ++ "/" ++ name) = d.
Proof.
  intros N S C. destruct (last_char d N) as (d0 & x & ->).
  assert (X : Ascii.eqb "/" x = false).
  { apply Ascii.eqb_neq. intros <-. now rewrite endswith_slash in S. }
  unfold posixpath.dirname, Str.rfind, posixpath.sep.
  rewrite rfind_from_append.
  change ("/" ++ name) with (String "/" name).
  cbn [Str.rfind_from]. change (Ascii.eqb "/" "/") with true. cbv iota.
  rewrite (rfind_from_absent _ _ _ _ C).
  unfold Str.take.
  replace (Z.to_nat (0 + Z.of_nat (String.length (d0 ++ String x EmptyString)) + 1))
    with (String.length ((d0 ++ String x EmptyString) ++ "/"))
    by (rewrite !length_append; cbn [String.length]; lia).
  change (String "/" name) with ("/" ++ name). rewrite <- (append_assoc _ "/" name).
  rewrite substring_prefix. rewrite !append_assoc.
  change (String x EmptyString ++ "/") with (String x "/").
  rewrite (forallb_append_false _ d0 x "/" X).
  replace (Str.is_empty (d0 ++ String x "/")) with false by (now destruct d0).
  cbn [negb andb].
  rewrite rstrip_if_append.
  - cbn [Str.rstrip_if Str.is_empty]. change (Ascii.eqb "/" "/") with true.
    rewrite X. reflexivity.
  - cbn [Str.rstrip_if Str.is_empty]. change (Ascii.eqb "/" "/") with true.
    rewrite X. reflexivity.
Qed.

(** A directory joined with a name is not empty and does not end with a
    slash. *)
Lemma join_name (d name : string) :
  Str.is_empty name = false -> Str.contains "/" name = false ->
  Str.is_empty (d ++ "/" ++ name) = false
  /\ Str.endswith (d ++ "/" ++ name) "/" = false.
Proof.
  intros N C. split; [now destruct d|].
  destruct (last_char name N) as (n0 & y & ->).
  rewrite <- !append_assoc. apply endswith_char. intros ->.
  rewrite contains_append in C. apply orb_false_elim in C. destruct C as [_ C].
  discriminate C.
Qed.

(** X12.  [DIRECTORY] is the directory three path components above the
    program file: for [<root>/<a>/<b>/<file>] (in the repository,
    [<root>/src/server/load.py]) it is [<root>], without a trailing
    slash. *)
Theorem DIRECTORY_is_three_components_above_the_file
    (env : Env) (root a b file : string) :
  abspath_file env = root ++ "/" ++ a ++ "/" ++ b ++ "/" ++ file ->
  Str.is_empty root = false -> Str.endswith root "/" = false ->
  Str.is_empty a = false -> Str.contains "/" a = false ->
  Str.is_empty b = false -> Str.contains "/" b = false ->
  Str.contains "/" file = false ->
  DIRECTORY env = root.
Proof.
  intros E R1 R2 A1 A2 B1 B2 F. unfold DIRECTORY. rewrite E.
  destruct (join_name root a A1 A2) as [RA1 RA2].
  destruct (join_name (root ++ "/" ++ a) b B1 B2) as [RB1 RB2].
  replace (root ++ "/" ++ a ++ "/" ++ b ++ "/" ++ file)
    with (((root ++ "/" ++ a) ++ "/" ++ b) ++ "/" ++ file)
    by (now rewrite !append_assoc).
  rewrite (dirname_join _ file RB1 RB2 F).
  rewrite (dirname_join _ b RA1 RA2 B2).
  exact (dirname_join root a R1 R2 A2).
Qed.

Lemma DIRECTORY_is_three_components_above_the_file_witness :
  DIRECTORY Example.env = "/srv/mission-control".
Proof.
  apply (DIRECTORY_is_three_components_above_the_file Example.env
           "/srv/mission-control" "src" "server" "load.py"); reflexivity.
Defined.

(** ** HEAD and GET *)

Lemma head_lines_app (w1 w2 : list chunk) :
  head_lines (w1 ++ w2)%list = (head_lines w1 ++ head_lines w2)%list.
Proof. apply flat_map_app. Qed.

Ltac same_head_done :=
  cbn [directory command path request_version headers _headers_buffer wfile
       close_connection];
  rewrite ?head_lines_app; cbn [head_lines flat_map]; rewrite ?app_nil_r;
  repeat split; congruence.

Lemma send_response_only_same code message a b :
  same_head a b ->
  same_head (BaseHTTPRequestHandler.send_response_only code message a)
            (BaseHTTPRequestHandler.send_response_only code message b).
Proof.
  intros (D & Pa & V & Hs & B & W).
  unfold same_head, BaseHTTPRequestHandler.send_response_only, set_headers_buffer.
  rewrite V. destruct (negb _); same_head_done.
Qed.

Lemma send_header_same keyword value a b :
  same_head a b ->
  same_head (BaseHTTPRequestHandler.send_header keyword value a)
            (BaseHTTPRequestHandler.send_header keyword value b).
Proof.
  intros (D & Pa & V & Hs & B & W).
  unfold same_head, BaseHTTPRequestHandler.send_header, set_headers_buffer,
    set_close_connection.
  cbv zeta. rewrite V.
  destruct (negb _); destruct (Str.lower keyword =? "connection");
    [destruct (Str.lower value =? "close");
       [|destruct (Str.lower value =? "keep-alive")]|
    |destruct (Str.lower value =? "close");
       [|destruct (Str.lower value =? "keep-alive")]|];
    same_head_done.
Qed.

Lemma send_response_same P code message a b :
  same_head a b ->
  same_head (BaseHTTPRequestHandler.send_response P code message a)
            (BaseHTTPRequestHandler.send_response P code message b).
Proof.
  intros H. unfold BaseHTTPRequestHandler.send_response.
  do 2 apply send_header_same. now apply send_response_only_same.
Qed.

Lemma end_headers_same a b :
  same_head a b ->
  same_head (MissionControlHandler.end_headers a) (MissionControlHandler.end_headers b).
Proof.
  intros H. unfold MissionControlHandler.end_headers.
  assert (E : forall x y, same_head x y ->
                same_head (BaseHTTPRequestHandler.end_headers x)
                          (BaseHTTPRequestHandler.end_headers y)).
  { intros x y (D & Pa & V & Hs & B & W).
    unfold same_head, BaseHTTPRequestHandler.end_headers,
      BaseHTTPRequestHandler.flush_headers, write, set_headers_buffer.
    rewrite V. destruct (negb _); same_head_done. }
  apply E. now do 4 apply send_header_same.
Qed.

(** Writing a part of the body changes no header line. *)
Lemma write_body_same (c1 c2 : bool) x a b :
  same_head a b ->
  same_head (if c1 then write (Body x) a else a) (if c2 then write (Body x) b else b).
Proof.
  intros (D & Pa & V & Hs & B & W). unfold same_head, write.
  destruct c1, c2; same_head_done.
Qed.

Lemma send_error_same P code message a b :
  same_head a b ->
  same_head
    (BaseHTTPRequestHandler.send_error P MissionControlHandler.end_headers code message a)
    (BaseHTTPRequestHandler.send_error P MissionControlHandler.end_headers code message b).
Proof.
  intros H. unfold BaseHTTPRequestHandler.send_error.
  destruct (BaseHTTPRequestHandler.responses code) as [[short long]|];
    cbv beta iota zeta.
  all: apply write_body_same; apply end_headers_same.
  all: match goal with
       | |- same_head (if ?c then _ else _) _ => destruct c
       end.
  all: repeat apply send_header_same.
  all: now apply send_response_only_same.
Qed.

Section Same.

Variable P : Platform.
Variable FS : FileSystem.

Lemma list_directory_same dirpath a b :
  same_head a b ->
  same_head
    (fst (SimpleHTTPRequestHandler.list_directory P FS MissionControlHandler.end_headers
            dirpath a))
    (fst (SimpleHTTPRequestHandler.list_directory P FS MissionControlHandler.end_headers
            dirpath b))
  /\ snd (SimpleHTTPRequestHandler.list_directory P FS MissionControlHandler.end_headers
            dirpath a)
     = snd (SimpleHTTPRequestHandler.list_directory P FS MissionControlHandler.end_headers
              dirpath b).
Proof.
  intros H. unfold SimpleHTTPRequestHandler.list_directory,
    SimpleHTTPRequestHandler.send_error, SimpleHTTPRequestHandler.send_response,
    SimpleHTTPRequestHandler.send_header.
  destruct (listdir FS dirpath) as [names|]; cbn [fst snd].
  - assert (L : SimpleHTTPRequestHandler.listing P FS dirpath a names
                = SimpleHTTPRequestHandler.listing P FS dirpath b names).
    { unfold SimpleHTTPRequestHandler.listing. destruct H as (_ & Pa & _).
      now rewrite Pa. }
    rewrite L. split; [|reflexivity].
    apply end_headers_same. do 2 apply send_header_same.
    now apply send_response_same.
  - split; [now apply send_error_same | reflexivity].
Qed.

Lemma send_head_file_same fspath a b :
  same_head a b ->
  same_head
    (fst (SimpleHTTPRequestHandler.send_head_file P FS MissionControlHandler.end_headers
            fspath a))
    (fst (SimpleHTTPRequestHandler.send_head_file P FS MissionControlHandler.end_headers
            fspath b))
  /\ snd (SimpleHTTPRequestHandler.send_head_file P FS MissionControlHandler.end_headers
            fspath a)
     = snd (SimpleHTTPRequestHandler.send_head_file P FS MissionControlHandler.end_headers
              fspath b).
Proof.
  intros H. unfold SimpleHTTPRequestHandler.send_head_file,
    SimpleHTTPRequestHandler.send_error, SimpleHTTPRequestHandler.send_response,
    SimpleHTTPRequestHandler.send_header.
  destruct (Str.endswith fspath "/"); cbn [fst snd];
    [split; [now apply send_error_same | reflexivity]|].
  destruct (open_rb FS fspath) as [f| |]; cbn [fst snd];
    [|split; [now apply send_error_same | reflexivity]
     |split; [exact H | reflexivity]].
  replace (headers a) with (headers b) by (symmetry; apply H).
  destruct (SimpleHTTPRequestHandler.not_modified P f (headers b)); cbn [fst snd];
    (split; [|reflexivity]); apply end_headers_same.
  - now apply send_response_same.
  - do 3 apply send_header_same. now apply send_response_same.
Qed.

Lemma send_head_same a b :
  same_head a b ->
  same_head
    (fst (SimpleHTTPRequestHandler.send_head P FS MissionControlHandler.end_headers a))
    (fst (SimpleHTTPRequestHandler.send_head P FS MissionControlHandler.end_headers b))
  /\ snd (SimpleHTTPRequestHandler.send_head P FS MissionControlHandler.end_headers a)
     = snd (SimpleHTTPRequestHandler.send_head P FS MissionControlHandler.end_headers b).
Proof.
  intros H. unfold SimpleHTTPRequestHandler.send_head. cbv zeta.
  assert (T : SimpleHTTPRequestHandler.translate_path P (path a) a
              = SimpleHTTPRequestHandler.translate_path P (path b) b).
  { unfold SimpleHTTPRequestHandler.translate_path.
    destruct H as (D & Pa & _). now rewrite D, Pa. }
  rewrite T. replace (path a) with (path b) by (symmetry; apply H).
  destruct (isdir FS _); [|now apply send_head_file_same].
  destruct (negb _); cbn [fst snd].
  - split; [|reflexivity]. apply end_headers_same.
    unfold SimpleHTTPRequestHandler.send_header, SimpleHTTPRequestHandler.send_response.
    destruct (send_response_buffered P 301 None a) as ((_ & _ & Ua & _) & _).
    destruct (send_response_buffered P 301 None b) as ((_ & _ & Ub & _) & _).
    rewrite Ua, Ub. replace (path a) with (path b) by (symmetry; apply H).
    do 2 apply send_header_same. now apply send_response_same.
  - destruct (isfile FS _); [now apply send_head_file_same|].
    destruct (isfile FS _); [now apply send_head_file_same|].
    destruct (list_directory_same
                (SimpleHTTPRequestHandler.translate_path P (path b) b) a b H) as [L1 L2].
    destruct (SimpleHTTPRequestHandler.list_directory _ _ _ _ a) as [a' fa].
    destruct (SimpleHTTPRequestHandler.list_directory _ _ _ _ b) as [b' fb].
    cbn [fst snd] in *. now subst fb.
Qed.

End Same.

(** X13.  For every path other than [/], the response to a HEAD request has
    the status line and the header fields of the response to the GET request
    for the same path, with the same version and headers, in every state of
    the file system; and the handler raises for the one exactly when it
    raises for the other. *)
Theorem head_request_gets_the_header_block_of_get
    (env : Env) (target version : string) (hs : list (string * string)) :
  target <> "/" ->
  head_lines (answer env [ {| req_command := "HEAD"; req_path := target;
                              req_version := version; req_headers := hs |} ])
  = head_lines (answer env [ {| req_command := "GET"; req_path := target;
                                req_version := version; req_headers := hs |} ])
  /\ snd (MissionControlHandler.__init__ env
            [ {| req_command := "HEAD"; req_path := target;
                 req_version := version; req_headers := hs |} ])
     = snd (MissionControlHandler.__init__ env
              [ {| req_command := "GET"; req_path := target;
                   req_version := version; req_headers := hs |} ]).
Proof.
  intros N. apply String.eqb_neq in N.
  set (rH := {| req_command := "HEAD"; req_path := target;
                req_version := version; req_headers := hs |}).
  set (rG := {| req_command := "GET"; req_path := target;
                req_version := version; req_headers := hs |}).
  rewrite !answer_eq, !raises_eq. unfold BaseHTTPRequestHandler.call_method.
  change (command (dispatched env rH)) with "HEAD".
  change (command (dispatched env rG)) with "GET".
  rewrite !getattr_do. cbn [String.eqb Ascii.eqb Bool.eqb]. rewrite do_GET_eq.
  assert (SP : served_path (dispatched env rG) = target).
  { unfold served_path. change (path (dispatched env rG)) with target. now rewrite N. }
  rewrite SP.
  unfold SimpleHTTPRequestHandler.do_GET, SimpleHTTPRequestHandler.do_HEAD.
  destruct (send_head_same (platform env) (fs env) (dispatched env rH)
              (set_path target (dispatched env rG))) as [S1 S2];
    [repeat split|].
  destruct (SimpleHTTPRequestHandler.send_head _ _ _ (set_path _ _)) as [b2 res2].
  destruct (SimpleHTTPRequestHandler.send_head _ _ _ _) as [b1 res1].
  cbn [fst snd] in *. subst res1.
  destruct res2 as [[f|]|e]; cbn [fst snd]; (split; [|reflexivity]).
  - unfold SimpleHTTPRequestHandler.copyfile.
    destruct S1 as (_ & _ & _ & _ & _ & W). rewrite W.
    destruct (Str.is_empty f); [reflexivity|].
    unfold write. cbn [wfile]. rewrite head_lines_app. cbn [head_lines flat_map].
    now rewrite app_nil_r.
  - apply S1.
  - apply S1.
Qed.

Lemma head_request_gets_the_header_block_of_get_witness :
  head_lines (answer Example.env [Example.HEAD "/secret.txt" "HTTP/1.1"])
  = head_lines (answer Example.env [Example.GET "/secret.txt" "HTTP/1.1" []])
  /\ status (answer Example.env [Example.HEAD "/secret.txt" "HTTP/1.1"]) = Some 200.
Proof.
  split.
  - apply (head_request_gets_the_header_block_of_get Example.env
             "/secret.txt" "HTTP/1.1" []).
    discriminate.
  - vm_compute. reflexivity.
Defined.

(** ** The query string *)

Lemma before_append c p q :
  Str.contains c p = false -> Str.before c (p ++ String c q) = p.
Proof.
  induction p as [|a p IH]; cbn [append Str.contains Str.before]; intros H.
  - now rewrite Ascii.eqb_refl.
  - apply orb_false_elim in H. destruct H as [H1 H2]. rewrite H1. now rewrite IH.
Qed.

Lemma before_absent c p : Str.contains c p = false -> Str.before c p = p.
Proof.
  induction p as [|a p IH]; cbn [Str.contains Str.before]; intros H; [reflexivity|].
  apply orb_false_elim in H. destruct H as [H1 H2]. rewrite H1. now rewrite IH.
Qed.

(** The query string takes no part in the resolution of the path. *)
Lemma translate_path_query P p q a b :
  Str.contains "?" p = false -> directory a = directory b ->
  SimpleHTTPRequestHandler.translate_path P (p ++ "?" ++ q) a
  = SimpleHTTPRequestHandler.translate_path P p b.
Proof.
  intros C D. unfold SimpleHTTPRequestHandler.translate_path. cbv zeta.
  change ("?" ++ q) with (String "?" q).
  rewrite (before_append _ _ _ C), (before_absent _ _ C), D. reflexivity.
Qed.

(** A path with a query string is not [/]. *)
Lemma query_not_root p q : (p ++ "?" ++ q =? "/") = false.
Proof.
  apply String.eqb_neq. intros E. destruct p as [|c p]; [discriminate E|].
  cbn [append] in E. injection E as _ E. destruct p; discriminate E.
Qed.

Ltac same_reply_done Wa Wb H :=
  destruct H as (C & V & Hs & B & W);
  rewrite Wa, Wb; rewrite ?C, ?V, ?Hs, ?B, ?W; reflexivity.

Section Query.

Variable P : Platform.
Variable FS : FileSystem.

Lemma send_head_file_same_reply fspath a b :
  same_reply a b ->
  wfile (fst (SimpleHTTPRequestHandler.send_head_file P FS
                MissionControlHandler.end_headers fspath a))
  = wfile (fst (SimpleHTTPRequestHandler.send_head_file P FS
                  MissionControlHandler.end_headers fspath b))
  /\ snd (SimpleHTTPRequestHandler.send_head_file P FS
            MissionControlHandler.end_headers fspath a)
     = snd (SimpleHTTPRequestHandler.send_head_file P FS
              MissionControlHandler.end_headers fspath b).
Proof.
  intros H.
  destruct (Str.endswith fspath "/") eqn:E.
  { destruct (send_head_file_not_found P FS fspath a (or_introl E)) as [(_ & _ & Wa) ->].
    destruct (send_head_file_not_found P FS fspath b (or_introl E)) as [(_ & _ & Wb) ->].
    split; [|reflexivity]. same_reply_done Wa Wb H. }
  destruct (open_rb FS fspath) as [f| |] eqn:O.
  - assert (HH : headers a = headers b) by apply H.
    destruct (SimpleHTTPRequestHandler.not_modified P f (headers b)) eqn:N.
    + destruct (send_head_file_not_modified P FS fspath f a E O) as [(_ & _ & Wa) ->];
        [now rewrite HH|].
      destruct (send_head_file_not_modified P FS fspath f b E O N) as [(_ & _ & Wb) ->].
      split; [|reflexivity]. same_reply_done Wa Wb H.
    + destruct (send_head_file_ok P FS fspath f a E O) as [(_ & _ & Wa) ->];
        [now rewrite HH|].
      destruct (send_head_file_ok P FS fspath f b E O N) as [(_ & _ & Wb) ->].
      split; [|reflexivity]. same_reply_done Wa Wb H.
  - destruct (send_head_file_not_found P FS fspath a (or_intror O)) as [(_ & _ & Wa) ->].
    destruct (send_head_file_not_found P FS fspath b (or_intror O)) as [(_ & _ & Wb) ->].
    split; [|reflexivity]. same_reply_done Wa Wb H.
  - rewrite !(send_head_file_raises P FS fspath _ E O). cbn [fst snd].
    split; [apply H | reflexivity].
Qed.

(** [send_head] for two requests that resolve to the same path, which is
    not a directory. *)
Lemma send_head_same_reply a b :
  same_reply a b ->
  SimpleHTTPRequestHandler.translate_path P (path a) a
  = SimpleHTTPRequestHandler.translate_path P (path b) b ->
  isdir FS (SimpleHTTPRequestHandler.translate_path P (path b) b) = false ->
  wfile (fst (SimpleHTTPRequestHandler.send_head P FS MissionControlHandler.end_headers a))
  = wfile (fst (SimpleHTTPRequestHandler.send_head P FS MissionControlHandler.end_headers b))
  /\ snd (SimpleHTTPRequestHandler.send_head P FS MissionControlHandler.end_headers a)
     = snd (SimpleHTTPRequestHandler.send_head P FS MissionControlHandler.end_headers b).
Proof.
  intros H T D. unfold SimpleHTTPRequestHandler.send_head. cbv zeta.
  rewrite T, D. now apply send_head_file_same_reply.
Qed.

End Query.

(** X14.  A query string does not change the response: when the path of a
    request has no query string, is not [/], and resolves to something that
    is not a directory, the request with a query string added is answered
    with the same bytes (the file, or the same error response), whatever the
    method. *)
Theorem query_string_does_not_change_the_response
    (env : Env) (r : Request) (q : string) :
  Str.contains "?" (req_path r) = false ->
  req_path r <> "/" ->
  isdir (fs env) (resolved_path env r) = false ->
  answer env [with_query q r] = answer env [r]
  /\ snd (MissionControlHandler.__init__ env [with_query q r])
     = snd (MissionControlHandler.__init__ env [r]).
Proof.
  intros C N D. apply String.eqb_neq in N.
  assert (SP : served_path (dispatched env r) = req_path r).
  { unfold served_path. change (path (dispatched env r)) with (req_path r).
    now rewrite N. }
  assert (SQ : served_path (dispatched env (with_query q r)) = req_path r ++ "?" ++ q).
  { unfold served_path.
    change (path (dispatched env (with_query q r))) with (req_path r ++ "?" ++ q).
    now rewrite query_not_root. }
  unfold resolved_path in D. rewrite SP in D.
  rewrite !answer_eq, !raises_eq. unfold BaseHTTPRequestHandler.call_method.
  change (command (dispatched env (with_query q r))) with (req_command r).
  change (command (dispatched env r)) with (req_command r).
  rewrite !getattr_do.
  destruct (req_command r =? "GET") eqn:G; [|destruct (req_command r =? "HEAD") eqn:Hd].
  - rewrite !do_GET_eq, SP, SQ. unfold SimpleHTTPRequestHandler.do_GET.
    destruct (send_head_same_reply (platform env) (fs env)
                (set_path (req_path r ++ "?" ++ q) (dispatched env (with_query q r)))
                (set_path (req_path r) (dispatched env r))) as [S1 S2].
    + repeat split.
    + now apply translate_path_query.
    + exact D.
    + destruct (SimpleHTTPRequestHandler.send_head _ _ _
                  (set_path (req_path r) (dispatched env r))) as [b2 res2].
      destruct (SimpleHTTPRequestHandler.send_head _ _ _ _) as [b1 res1].
      cbn [fst snd] in *. subst res1.
      destruct res2 as [[f|]|e]; cbn [fst snd]; (split; [|reflexivity]);
        [|exact S1|exact S1].
      unfold SimpleHTTPRequestHandler.copyfile.
      destruct (Str.is_empty f); [exact S1|]. unfold write. cbn [wfile].
      now rewrite S1.
  - unfold SimpleHTTPRequestHandler.do_HEAD.
    destruct (send_head_same_reply (platform env) (fs env)
                (dispatched env (with_query q r)) (dispatched env r)) as [S1 S2].
    + repeat split.
    + now apply translate_path_query.
    + exact D.
    + destruct (SimpleHTTPRequestHandler.send_head _ _ _ (dispatched env r))
        as [b2 res2].
      destruct (SimpleHTTPRequestHandler.send_head _ _ _ _) as [b1 res1].
      cbn [fst snd] in *. subst res1.
      destruct res2 as [f|e]; cbn [fst snd]; (split; [exact S1 | reflexivity]).
  - cbn [fst snd]. split; [|reflexivity].
    destruct (send_error_responded (platform env) 501
                ("Unsupported method (" ++ repr (platform env)
                                             (command (dispatched env r)) ++ ")")
                (dispatched env (with_query q r)) eq_refl) as (_ & _ & Wa).
    destruct (send_error_responded (platform env) 501
                ("Unsupported method (" ++ repr (platform env)
                                             (command (dispatched env r)) ++ ")")
                (dispatched env r) eq_refl) as (_ & _ & Wb).
    exact (eq_trans Wa (eq_sym Wb)).
Qed.

Lemma query_string_does_not_change_the_response_witness :
  answer Example.env [Example.GET "/secret.txt?v=2" "HTTP/1.1" []]
  = answer Example.env [Example.GET "/secret.txt" "HTTP/1.1" []]
  /\ body (answer Example.env [Example.GET "/secret.txt?v=2" "HTTP/1.1" []])
     = "inside the root".
Proof.
  split.
  - apply (query_string_does_not_change_the_response Example.env
             (Example.GET "/secret.txt" "HTTP/1.1" []) "v=2");
      [reflexivity | discriminate | vm_compute; reflexivity].
  - vm_compute. reflexivity.
Defined.

(** ** The protocol of the responses *)


